(** * CFR decompiler MCP server: a shallow embedding and its properties

    The development follows [cfr_mcp_server_v2.py] (module [V2]) and
    [cfr_mcp_server.py] (module [V1]).

    Representation choices.
    - A Python [str] is a Rocq [string] holding the UTF-8 encoding of the text;
      substring search, [startswith], [endswith], [replace] with ASCII
      patterns and equality agree on both views because UTF-8 is
      self-synchronising.
    - Python [bytes] are [list byte]; [str.encode('utf-8')] is the
      byte-for-byte view of the representation.
    - The operating system (file system, zip archives, child processes,
      temporary directories) is an interface [OS]; every call into it is
      recorded in a trace of events, so that "no process was spawned" is a
      statement about the trace.
    - Python exceptions are values of [res]; [try]/[except] and [with] are
      combinators of a small state-and-exception monad.
    - Logging calls are not modelled (the logger is configured by
      [setup_logging] before any server starts, and logging has no effect on
      results). *)

From Stdlib Require Import String Ascii List ZArith Lia Bool.
From Stdlib Require Import Strings.Byte.
From Stdlib Require Import DecimalString.
Import ListNotations.
Open Scope list_scope.
Open Scope string_scope.

(* ================================================================== *)
(** * Python string operations *)
(* ================================================================== *)

Module PyStr.

(** The line feed character and the one-character string ["\n"]. *)
Definition LF_char : ascii := ascii_of_nat 10.
Definition LF : string := String LF_char "".

(** [s.startswith(p)] *)
Fixpoint startswith (s p : string) {struct p} : bool :=
  match p with
  | EmptyString => true
  | String a p' =>
      match s with
      | EmptyString => false
      | String b s' => Ascii.eqb a b && startswith s' p'
      end
  end.

(** [s.endswith(suf)]: some tail of [s] is [suf]. *)
Fixpoint endswith (s suf : string) : bool :=
  String.eqb s suf ||
  match s with
  | EmptyString => false
  | String _ s' => endswith s' suf
  end.

(** [sub in s] *)
Fixpoint contains (sub s : string) : bool :=
  startswith s sub ||
  match s with
  | EmptyString => false
  | String _ s' => contains sub s'
  end.

(** Drop the first [n] characters: [s[n:]]. *)
Fixpoint drop (n : nat) (s : string) : string :=
  match n, s with
  | O, _ => s
  | S n', String _ s' => drop n' s'
  | S _, EmptyString => EmptyString
  end.

(** Keep the first [n] characters: [s[:n]]. *)
Fixpoint take (n : nat) (s : string) : string :=
  match n, s with
  | O, _ => EmptyString
  | S n', String c s' => String c (take n' s')
  | S _, EmptyString => EmptyString
  end.

(** [s.replace(old, new)] for a non-empty [old]: scan left to right, replace
    each occurrence and resume after it.  [skip] counts the characters of an
    occurrence that are still to be passed over. *)
Fixpoint replace_from (old new : string) (skip : nat) (s : string) : string :=
  match s with
  | EmptyString => EmptyString
  | String c s' =>
      match skip with
      | S k => replace_from old new k s'
      | O =>
          if startswith s old
          then new ++ replace_from old new (String.length old - 1) s'
          else String c (replace_from old new 0 s')
      end
  end.

(** For an empty [old] Python inserts [new] before every character and at
    the end. *)
Fixpoint intersperse (new s : string) : string :=
  match s with
  | EmptyString => new
  | String c s' => new ++ String c (intersperse new s')
  end.

Definition replace (s old new : string) : string :=
  match old with
  | EmptyString => intersperse new s
  | _ => replace_from old new 0 s
  end.

(** Specification device: [s] with every character [a] turned into [b]. *)
Fixpoint translate (a b : ascii) (s : string) : string :=
  match s with
  | EmptyString => EmptyString
  | String c s' => String (if Ascii.eqb a c then b else c) (translate a b s')
  end.

(** [s.lower()] on the ASCII letters.  The program only compares the result
    with the ASCII literal [".jar"] or applies it to ["True"]/["False"]; no
    non-ASCII character lower-cases to one of the letters j, a, r. *)
Definition lower_char (c : ascii) : ascii :=
  let n := nat_of_ascii c in
  if (65 <=? n)%nat && (n <=? 90)%nat then ascii_of_nat (n + 32) else c.

Fixpoint lower (s : string) : string :=
  match s with
  | EmptyString => EmptyString
  | String c s' => String (lower_char c) (lower s')
  end.

(** The UTF-8 encodings of the characters for which [str.isspace()] holds:
    U+0009..U+000D, U+001C..U+0020, U+0085, U+00A0, U+1680, U+2000..U+200A,
    U+2028, U+2029, U+202F, U+205F, U+3000. *)
Definition bytes_str (l : list nat) : string :=
  string_of_list_ascii (map ascii_of_nat l).

Definition whitespace : list string :=
  (map (fun n => bytes_str [n]) [9; 10; 11; 12; 13; 28; 29; 30; 31; 32]
   ++ [bytes_str [194; 133]; bytes_str [194; 160]; bytes_str [225; 154; 128]]
   ++ map (fun n => bytes_str [226; 128; n])
          [128; 129; 130; 131; 132; 133; 134; 135; 136; 137; 138; 168; 169; 175]
   ++ [bytes_str [226; 129; 159]; bytes_str [227; 128; 128]])%list.

(** [s.lstrip()]: remove whitespace characters from the left.  Every step
    removes at least one byte, so [length s] steps always suffice. *)
Fixpoint lstrip_steps (n : nat) (s : string) : string :=
  match n with
  | O => s
  | S n' =>
      match find (startswith s) whitespace with
      | Some w => lstrip_steps n' (drop (String.length w) s)
      | None => s
      end
  end.

Definition lstrip (s : string) : string := lstrip_steps (String.length s) s.

(** [s.rstrip()] *)
Fixpoint rstrip_steps (n : nat) (s : string) : string :=
  match n with
  | O => s
  | S n' =>
      match find (endswith s) whitespace with
      | Some w => rstrip_steps n' (take (String.length s - String.length w) s)
      | None => s
      end
  end.

Definition rstrip (s : string) : string := rstrip_steps (String.length s) s.

(** [s.strip()] *)
Definition strip (s : string) : string := rstrip (lstrip s).

(** Truth value of a string: non-empty. *)
Definition truthy (s : string) : bool := negb (String.eqb s "").

(** [str(n)] for an integer. *)
Definition str_of_Z (z : Z) : string := NilZero.string_of_int (Z.to_int z).

(** [len(l)] rendered by [str]. *)
Definition str_of_len {A} (l : list A) : string := str_of_Z (Z.of_nat (List.length l)).

(** [sep.join(l)] *)
Definition join (sep : string) (l : list string) : string := String.concat sep l.

End PyStr.

(* ================================================================== *)
(** * Python bytes *)
(* ================================================================== *)

Module PyBytes.

Definition bytes := list byte.

(** [s.encode('utf-8')]: a [str] is represented by its UTF-8 encoding. *)
Definition encode_utf8 (s : string) : bytes := list_byte_of_string s.

Fixpoint startswith (b p : bytes) {struct p} : bool :=
  match p with
  | [] => true
  | x :: p' =>
      match b with
      | [] => false
      | y :: b' => Byte.eqb x y && startswith b' p'
      end
  end.

(** [sub in b] *)
Fixpoint contains (sub b : bytes) : bool :=
  startswith b sub ||
  match b with
  | [] => false
  | _ :: b' => contains sub b'
  end.

End PyBytes.

(* ================================================================== *)
(** * The fragment of Python's [re] used by the program *)
(* ================================================================== *)

Module PyRe.

(** Pattern items: [^], [$] and a greedy [[...]+] over a character class
    given by inclusive ranges. *)
Inductive item : Type :=
| Bol
| Eol
| ClassPlus (ranges : list (ascii * ascii)).

Definition pattern := list item.

Definition in_range (c : ascii) (r : ascii * ascii) : bool :=
  (nat_of_ascii (fst r) <=? nat_of_ascii c)%nat &&
  (nat_of_ascii c <=? nat_of_ascii (snd r))%nat.

Definition in_class (ranges : list (ascii * ascii)) (c : ascii) : bool :=
  existsb (in_range c) ranges.

(** One or more characters of the class, then the continuation; the longest
    run is tried first and shorter ones on backtracking. *)
Fixpoint match_plus (ranges : list (ascii * ascii)) (cont : string -> bool)
         (s : string) : bool :=
  match s with
  | EmptyString => false
  | String c s' => in_class ranges c && (match_plus ranges cont s' || cont s')
  end.

(** Without [re.MULTILINE], [^] matches at the start of the string only, and
    [$] matches at the end of the string or just before a line feed that is
    the last character of the string. *)
Fixpoint match_here (p : pattern) (at_start : bool) (s : string) : bool :=
  match p with
  | [] => true
  | Bol :: p' => at_start && match_here p' at_start s
  | Eol :: p' =>
      (String.eqb s "" || String.eqb s PyStr.LF) && match_here p' at_start s
  | ClassPlus ranges :: p' => match_plus ranges (match_here p' false) s
  end.

(** [bool(re.match(p, s))]: the match is anchored at position 0. *)
Definition re_match (p : pattern) (s : string) : bool := match_here p true s.

End PyRe.

(* ================================================================== *)
(** * Exceptions, the operating system and the effect monad *)
(* ================================================================== *)

(** Exceptions derived from Python's [Exception].  [TimeoutExpired] is
    [subprocess.TimeoutExpired]; [ValueError] is raised by the dispatcher;
    [OtherError] stands for every other exception class (OSError, KeyError,
    BadZipFile, ...).  Each carries its [str(e)]. *)
Inductive exn : Type :=
| TimeoutExpired (msg : string)
| ValueError (msg : string)
| OtherError (msg : string).

Definition str_of_exn (e : exn) : string :=
  match e with
  | TimeoutExpired m => m
  | ValueError m => m
  | OtherError m => m
  end.

(** The outcome of a Python call: a value or a raised exception. *)
Inductive res (A : Type) : Type :=
| Ok (a : A)
| Raise (e : exn).
Arguments Ok {A} a.
Arguments Raise {A} e.

(** [subprocess.CompletedProcess] with [capture_output=True, text=True]. *)
Record CompletedProcess : Type := {
  stdout : string;
  stderr : string
}.

(** One member of a zip archive as [ZipFile.infolist()] lists it; [content]
    is what [jar.open(info).read()] gives, [None] when reading raises. *)
Record ZipEntry : Type := {
  filename : string;
  content : option PyBytes.bytes
}.

(** What the program asks of its environment.  Paths are handled as the
    strings [str(path)].  [resolve()] and [exists()] answer or raise (a path
    with an embedded NUL makes [resolve()] raise [ValueError], an over-long
    name makes [exists()] raise [OSError]); their answers are stable during
    one call.  Creating the temporary directory succeeds.  [World] is the
    mutable part that extraction and child processes read and change. *)
Record OS : Type := {
  World : Type;
  (** [str(Path(p).resolve())], or the exception it raises *)
  resolve : string -> res string;
  (** [Path(p).exists()], or the exception it raises *)
  path_exists : string -> res bool;
  (** [Path(p).name] *)
  path_name : string -> string;
  (** [Path(p).suffix] *)
  path_suffix : string -> string;
  (** [Path(p).stat().st_size] of an existing path *)
  st_size : string -> Z;
  (** [zipfile.ZipFile(p, 'r').infolist()] with each member's content;
      [None] when opening the archive raises *)
  zip_read : string -> option (list ZipEntry);
  (** [tempfile.TemporaryDirectory()]: the name of the fresh directory *)
  mkdtemp : World -> string * World;
  (** removal of the temporary directory when the [with] block is left *)
  rmtree : string -> World -> World;
  (** [ZipFile(jar).extract(member, dest)]: the extracted path, or raises *)
  zip_extract : string -> string -> string -> World -> res string * World;
  (** [subprocess.run(cmd, capture_output=True, text=True, check=False,
      timeout=t)] *)
  subprocess_run : list string -> Z -> World -> res CompletedProcess * World
}.

(** The calls into the environment that change it or start something. *)
Inductive event : Type :=
| EvMkdtemp (dir : string)
| EvRmtree (dir : string)
| EvExtract (jar member dest : string)
| EvSpawn (cmd : list string) (timeout : Z).

Section Effects.

Variable os : OS.

Record state : Type := {
  world : World os;
  trace : list event
}.

(** A computation reads and changes the state and yields a value or raises;
    an exception does not undo the effects before it. *)
Definition M (A : Type) : Type := state -> res A * state.

Definition ret {A} (a : A) : M A := fun st => (Ok a, st).

Definition raise {A} (e : exn) : M A := fun st => (Raise e, st).

Definition bind {A B} (m : M A) (k : A -> M B) : M B :=
  fun st =>
    match m st with
    | (Ok a, st') => k a st'
    | (Raise e, st') => (Raise e, st')
    end.

(** [try: body except Exception as e: handler(e)] *)
Definition try_except {A} (body : M A) (handler : exn -> M A) : M A :=
  fun st =>
    match body st with
    | (Ok a, st') => (Ok a, st')
    | (Raise e, st') => handler e st'
    end.

(** [try: body finally: cleanup] *)
Definition try_finally {A} (body : M A) (cleanup : M unit) : M A :=
  fun st =>
    match body st with
    | (r, st') =>
        match cleanup st' with
        | (Ok _, st'') => (r, st'')
        | (Raise e, st'') => (Raise e, st'')
        end
    end.

(** A call that reads the environment without changing it. *)
Definition lift {A} (r : res A) : M A := fun st => (r, st).

Definition log (e : event) (st : state) : state :=
  {| world := world st; trace := trace st ++ [e] |}.

Definition tempdir_create : M string :=
  fun st =>
    let (d, w) := mkdtemp os (world st) in
    (Ok d, log (EvMkdtemp d) {| world := w; trace := trace st |}).

Definition tempdir_cleanup (d : string) : M unit :=
  fun st =>
    (Ok tt, log (EvRmtree d) {| world := rmtree os d (world st); trace := trace st |}).

(** [with tempfile.TemporaryDirectory() as d: body(d)] *)
Definition with_tempdir {A} (body : string -> M A) : M A :=
  bind tempdir_create (fun d => try_finally (body d) (tempdir_cleanup d)).

(** [with zipfile.ZipFile(jar_path, 'r') as jar: body]: opening raises when
    the archive cannot be read. *)
Definition with_zipfile {A} (jar_path : string) (body : M A) : M A :=
  match zip_read os jar_path with
  | Some _ => body
  | None => raise (OtherError ("File is not a zip file"))
  end.

(** [jar.extract(member, dest)] *)
Definition jar_extract (jar_path member dest : string) : M string :=
  fun st =>
    let (r, w) := zip_extract os jar_path member dest (world st) in
    (r, log (EvExtract jar_path member dest) {| world := w; trace := trace st |}).

(** [subprocess.run(cmd, ..., timeout=t)] *)
Definition run_process (cmd : list string) (t : Z) : M CompletedProcess :=
  fun st =>
    let (r, w) := subprocess_run os cmd t (world st) in
    (r, log (EvSpawn cmd t) {| world := w; trace := trace st |}).

(** [for x in xs: acc = body(x, acc)] *)
Fixpoint for_each {A S} (xs : list A) (body : A -> S -> M S) (acc : S) : M S :=
  match xs with
  | [] => ret acc
  | x :: xs' => bind (body x acc) (fun acc' => for_each xs' body acc')
  end.

End Effects.

Arguments world {os} s.
Arguments trace {os} s.
Arguments log {os} e st.
Arguments ret {os A} a.
Arguments lift {os A} r.
Arguments raise {os A} e.
Arguments bind {os A B} m k.
Arguments try_except {os A} body handler.
Arguments try_finally {os A} body cleanup.
Arguments with_tempdir {os A} body.
Arguments with_zipfile {os A} jar_path body.
Arguments for_each {os A S} xs body acc.

Notation "x <- m ;; k" := (bind m (fun x => k))
  (at level 61, m at next level, right associativity).

(* ================================================================== *)
(** * Tool-call arguments *)
(* ================================================================== *)

(** A value of the [options] object.  [PyOther] stands for a value of any
    other type (float, list, nested object) and carries its [str()]. *)
Inductive pyvalue : Type :=
| PyBool (b : bool)
| PyInt (z : Z)
| PyStr (s : string)
| PyNone
| PyOther (shown : string).

(** [str(value)] *)
Definition py_str (v : pyvalue) : string :=
  match v with
  | PyBool true => "True"
  | PyBool false => "False"
  | PyInt z => PyStr.str_of_Z z
  | PyStr s => s
  | PyNone => "None"
  | PyOther shown => shown
  end.

(** [isinstance(value, bool)] *)
Definition isinstance_bool (v : pyvalue) : bool :=
  match v with PyBool _ => true | _ => false end.

(** The [arguments] dict of a [decompile] call, typed as the tool's input
    schema declares it; each field is what [arguments.get(key)] returns
    ([None] for an absent key).  The [options] object keeps the insertion
    order of its items. *)
Record Arguments : Type := {
  file_path : option string;
  class_name : option string;
  method_name : option string;
  ignore_exceptions : option bool;
  hide_utf : option bool;
  options : option (list (string * pyvalue))
}.

(** Truth value of [arguments.get(key)] for a string-valued key: the value
    when it is present and non-empty. *)
Definition if_str (o : option string) : option string :=
  match o with
  | Some s => if PyStr.truthy s then Some s else None
  | None => None
  end.

(** Truth value of [arguments.get(key)] for a boolean key. *)
Definition if_bool (o : option bool) : bool :=
  match o with
  | Some b => b
  | None => false
  end.

(** [l.append(x)] and [l.extend(ext)], as values. *)
Definition append {A} (l : list A) (x : A) : list A := (l ++ [x])%list.
Definition extend {A} (l ext : list A) : list A := (l ++ ext)%list.

(** [not l] for a list *)
Definition is_empty {A} (l : list A) : bool :=
  match l with [] => true | _ => false end.

(* ================================================================== *)
(** * cfr_mcp_server_v2.py *)
(* ================================================================== *)

Module V2.

Import PyStr.

Definition CFR_JAR_PATH : string := "cfr.jar".
Definition CMD_TIMEOUT_SECONDS : Z := 60.

(** [r'^[a-zA-Z0-9]+$'] *)
Definition option_key_pattern : PyRe.pattern :=
  [PyRe.Bol;
   PyRe.ClassPlus [("a", "z"); ("A", "Z"); ("0", "9")]%char;
   PyRe.Eol].

Definition validate_option_key (key : string) : bool :=
  PyRe.re_match option_key_pattern key.

(** Specification device: a string of ASCII letters and digits only. *)
Fixpoint all_alnum (s : string) : bool :=
  match s with
  | EmptyString => true
  | String c s' =>
      PyRe.in_class [("a", "z"); ("A", "Z"); ("0", "9")]%char c && all_alnum s'
  end.

(** The comment block that carries the child's standard error. *)
Definition stderr_block (err : string) : string :=
  LF ++ LF ++ "/*" ++ LF ++ "[CFR STDERR]" ++ LF ++ err ++ LF ++ "*/".

Definition timeout_message : string :=
  "/* Error: Decompilation timed out. (反编译超时) */".

(** Pure scan helpers of the two archive lookups. *)

(** The loop of [find_classes_in_jar]; a member that cannot be read raises,
    which leaves the loop with the candidates found so far. *)
Fixpoint scan_classes (method_bytes : PyBytes.bytes) (infolist : list ZipEntry)
         (candidates : list string) : list string :=
  match infolist with
  | [] => candidates
  | file_info :: rest =>
      if endswith (filename file_info) ".class" then
        match content file_info with
        | Some c =>
            if PyBytes.contains method_bytes c
            then scan_classes method_bytes rest (append candidates (filename file_info))
            else scan_classes method_bytes rest candidates
        | None => candidates
        end
      else scan_classes method_bytes rest candidates
  end.

(** One iteration of the loop of [find_class_by_name_in_jar]. *)
Definition match_class (target_path : string) (exact_match : bool)
           (candidates : list string) (file_info : ZipEntry) : list string :=
  if endswith (filename file_info) ".class" then
    if exact_match then
      if String.eqb (filename file_info) target_path
      then append candidates (filename file_info)
      else candidates
    else
      if endswith (filename file_info) ("/" ++ target_path)
         || String.eqb (filename file_info) target_path
      then append candidates (filename file_info)
      else candidates
  else candidates.

(** Specification device: the test one iteration of
    [find_class_by_name_in_jar] applies to the path of a [.class] entry. *)
Definition class_matches (target_path : string) (exact_match : bool)
           (name : string) : bool :=
  if exact_match then String.eqb name target_path
  else endswith name ("/" ++ target_path) || String.eqb name target_path.

(** The loop of [call_tool] over the items of [options]. *)
Definition add_option (base_args : list string) (item : string * pyvalue)
  : list string :=
  let (key, value) := item in
  if negb (validate_option_key key) then base_args
  else
    let val_str := if isinstance_bool value then lower (py_str value)
                   else py_str value in
    extend base_args ["--" ++ key; val_str].

Section Server.

Variable os : OS.

Definition run_cfr_sync (cmd : list string) : M os string :=
  try_except
    (process <- run_process os cmd CMD_TIMEOUT_SECONDS ;;
     let output := stdout process in
     let output :=
       if truthy (stderr process)
          && (0 <? String.length (strip (stderr process)))%nat
       then output ++ stderr_block (stderr process)
       else output in
     ret output)
    (fun e =>
       match e with
       | TimeoutExpired _ => ret timeout_message
       | _ => ret ("/* Error executing CFR: " ++ str_of_exn e ++ " */")
       end).

Definition find_classes_in_jar (jar_path method_name : string) : list string :=
  let method_bytes := PyBytes.encode_utf8 method_name in
  match zip_read os jar_path with
  | Some infolist => scan_classes method_bytes infolist []
  | None => []
  end.

Definition find_class_by_name_in_jar (jar_path class_name : string)
  : list string :=
  let (target_path, exact_match) :=
    if contains "." class_name && negb (endswith class_name ".class")
    then (replace class_name "." "/" ++ ".class", true)
    else (replace class_name ".class" "" ++ ".class", false) in
  match zip_read os jar_path with
  | Some infolist => fold_left (match_class target_path exact_match) infolist []
  | None => []
  end.

(** The entry paths of an archive in archive order; none when the archive
    cannot be opened. *)
Definition entry_names (jar_path : string) : list string :=
  match zip_read os jar_path with
  | Some infolist => map filename infolist
  | None => []
  end.

(** The body of the candidate loop of [decompile_jar_class_sync]. *)
Definition class_step (jar_path temp_path : string) (base_cmd_args : list string)
           (class_file : string) (results : list string) : M os (list string) :=
  try_except
    (extracted_path <- jar_extract os jar_path class_file temp_path ;;
     let cmd := (["java"; "-jar"; CFR_JAR_PATH; extracted_path] ++ base_cmd_args)%list in
     output <- run_cfr_sync cmd ;;
     if truthy output && (0 <? String.length (strip output))%nat then
       let class_header := "// Source: " ++ class_file ++ LF in
       ret (append results (class_header ++ output))
     else ret results)
    (fun e =>
       ret (append results
              ("/* Failed to decompile " ++ class_file ++ ": " ++ str_of_exn e ++ " */"))).

Definition class_not_found (class_name jar_name : string) : string :=
  "/* Class '" ++ class_name ++ "' not found in " ++ jar_name ++ "." ++ LF
  ++ "   Tips: " ++ LF
  ++ "   - For simple name, use: 'BusTypeServiceImpl'" ++ LF
  ++ "   - For full path, use: 'nc.impl.fts.bustype.BusTypeServiceImpl'" ++ LF
  ++ "*/".

Definition decompile_jar_class_sync (jar_path class_name : string)
           (base_cmd_args : list string) : M os string :=
  let candidates := find_class_by_name_in_jar jar_path class_name in
  if is_empty candidates then
    ret (class_not_found class_name (path_name os jar_path))
  else
    results <-
      with_tempdir (fun temp_dir =>
        let temp_path := temp_dir in
        with_zipfile jar_path
          (for_each candidates (class_step jar_path temp_path base_cmd_args) [])) ;;
    if is_empty results then
      ret ("/* Found " ++ str_of_len candidates
           ++ " class(es) but CFR produced no output. */")
    else ret (join (LF ++ LF) results).

(** The body of the candidate loop of [decompile_jar_method_sync]. *)
Definition method_step (jar_path temp_path method_name : string)
           (base_cmd_args : list string)
           (class_file : string) (results : list string) : M os (list string) :=
  try_except
    (extracted_path <- jar_extract os jar_path class_file temp_path ;;
     let cmd := ["java"; "-jar"; CFR_JAR_PATH; extracted_path] in
     let cmd := extend cmd base_cmd_args in
     output <- run_cfr_sync cmd ;;
     if contains method_name output then
       let class_header := "// Source: " ++ class_file ++ LF in
       ret (append results (class_header ++ output))
     else ret results)
    (fun e => ret results).

(** Specification device, not a function of the program: what one
    iteration of the loop of [decompile_jar_method_sync] obtains for a
    candidate before the filter, namely the extraction followed by the
    decompiler run; [Raise] when the extraction raises. *)
Definition candidate_output (jar_path temp_path : string)
           (base_cmd_args : list string) (class_file : string) : M os string :=
  extracted_path <- jar_extract os jar_path class_file temp_path ;;
  run_cfr_sync (extend ["java"; "-jar"; CFR_JAR_PATH; extracted_path] base_cmd_args).

(** Specification device: the outputs of all candidates, in loop order, each
    obtained in the state the previous ones left. *)
Fixpoint candidate_outputs (jar_path temp_path : string)
         (base_cmd_args : list string) (candidates : list string)
         (st : state os) : list (string * res string) * state os :=
  match candidates with
  | [] => ([], st)
  | class_file :: rest =>
      let (r, st') := candidate_output jar_path temp_path base_cmd_args class_file st in
      let (obs, st'') := candidate_outputs jar_path temp_path base_cmd_args rest st' in
      ((class_file, r) :: obs, st'')
  end.

(** Specification device: the candidates the post-filter keeps, with their
    output. *)
Definition retained (method_name : string) (obs : list (string * res string))
  : list (string * string) :=
  flat_map (fun o =>
              match snd o with
              | Ok output =>
                  if contains method_name output then [(fst o, output)] else []
              | Raise _ => []
              end) obs.

(** The block appended for a kept candidate. *)
Definition labeled_block (b : string * string) : string :=
  let class_header := "// Source: " ++ fst b ++ LF in
  class_header ++ snd b.

Definition method_not_found (method_name jar_name : string) (size : Z) : string :=
  "/* Method '" ++ method_name ++ "' not found in any class within " ++ jar_name
  ++ " (scanned " ++ str_of_Z size ++ " bytes) */".

Definition method_no_output (method_name : string) (candidates : list string)
  : string :=
  "/* Method '" ++ method_name ++ "' matched binary search in "
  ++ str_of_len candidates ++ " classes but CFR produced no output. */".

Definition decompile_jar_method_sync (jar_path method_name : string)
           (base_cmd_args : list string) : M os string :=
  let candidates := find_classes_in_jar jar_path method_name in
  if is_empty candidates then
    ret (method_not_found method_name (path_name os jar_path) (st_size os jar_path))
  else
    results <-
      with_tempdir (fun temp_dir =>
        let temp_path := temp_dir in
        with_zipfile jar_path
          (for_each candidates
             (method_step jar_path temp_path method_name base_cmd_args) [])) ;;
    if is_empty results then ret (method_no_output method_name candidates)
    else ret (join (LF ++ LF) results).

(** The flags built before routing. *)
Definition build_base_args (arguments : Arguments) : list string :=
  let base_args := [] in
  let base_args :=
    if if_bool (ignore_exceptions arguments)
    then extend base_args ["--ignoreexceptions"; "true"] else base_args in
  let base_args :=
    if if_bool (hide_utf arguments)
    then extend base_args ["--hideutf"; "true"] else base_args in
  let base_args := extend base_args ["--comments"; "false"] in
  let base_args := extend base_args ["--showversion"; "false"] in
  let extra_options :=
    match options arguments with Some d => d | None => [] end in
  fold_left add_option extra_options base_args.

(** [call_tool]; the text of the single [TextContent] is the result. *)
Definition call_tool (name : string) (arguments : Arguments) : M os string :=
  if negb (String.eqb name "decompile") then
    raise (ValueError ("Unknown tool: " ++ name))
  else
    let file_path_str := file_path arguments in
    let class_name := class_name arguments in
    let method_name := method_name arguments in
    match if_str file_path_str with
    | None => raise (ValueError "file_path is required")
    | Some file_path_str =>
        path <- lift (resolve os file_path_str) ;;
        path_found <- lift (path_exists os path) ;;
        if negb path_found then
          ret ("Error: File not found: " ++ path)
        else
          cfr_found <- lift (path_exists os CFR_JAR_PATH) ;;
          if negb cfr_found then
            ret ("Error: CFR jar not found at: " ++ CFR_JAR_PATH)
          else
          let base_args := build_base_args arguments in
          if String.eqb (lower (path_suffix os path)) ".jar" then
            match if_str class_name with
            | Some class_name =>
                decompile_jar_class_sync path class_name base_args
            | None =>
                match if_str method_name with
                | Some method_name =>
                    let method_args :=
                      extend base_args ["--methodname"; method_name] in
                    decompile_jar_method_sync path method_name method_args
                | None =>
                    let cmd :=
                      (["java"; "-jar"; CFR_JAR_PATH; path] ++ base_args)%list in
                    run_cfr_sync cmd
                end
            end
          else
            let base_args :=
              match if_str method_name with
              | Some method_name =>
                  extend base_args ["--methodname"; method_name]
              | None => base_args
              end in
            let cmd := (["java"; "-jar"; CFR_JAR_PATH; path] ++ base_args)%list in
            run_cfr_sync cmd
    end.

End Server.

End V2.

(* ================================================================== *)
(** * cfr_mcp_server.py *)
(* ================================================================== *)

Module V1.

Import PyStr.

Definition CFR_JAR_PATH : string := "cfr.jar".
Definition CMD_TIMEOUT_SECONDS : Z := 30.

(** [r'^[a-zA-Z0-9]+$'] *)
Definition option_key_pattern : PyRe.pattern :=
  [PyRe.Bol;
   PyRe.ClassPlus [("a", "z"); ("A", "Z"); ("0", "9")]%char;
   PyRe.Eol].

Definition validate_option_key (key : string) : bool :=
  PyRe.re_match option_key_pattern key.

Definition stderr_block (err : string) : string :=
  LF ++ LF ++ "/*" ++ LF ++ "[CFR STDERR]" ++ LF ++ err ++ LF ++ "*/".

Definition timeout_message : string :=
  "/* Error: Decompilation timed out. File might be too complex or large. (反编译超时，文件可能过大或过于复杂) */".

(** The loop of [call_tool] over the items of [options]. *)
Definition add_option (cmd : list string) (item : string * pyvalue)
  : list string :=
  let (key, value) := item in
  if negb (validate_option_key key) then cmd
  else
    let val_str := if isinstance_bool value then lower (py_str value)
                   else py_str value in
    extend cmd ["--" ++ key; val_str].

Section Server.

Variable os : OS.

Definition run_cfr_sync (cmd : list string) : M os string :=
  try_except
    (process <- run_process os cmd CMD_TIMEOUT_SECONDS ;;
     let output := stdout process in
     let output :=
       if truthy (stderr process)
          && (0 <? String.length (strip (stderr process)))%nat
       then output ++ stderr_block (stderr process)
       else output in
     ret output)
    (fun e =>
       match e with
       | TimeoutExpired _ => ret timeout_message
       | _ => ret ("/* Error executing CFR (执行 CFR 出错): " ++ str_of_exn e ++ " */")
       end).

(** The command vector [call_tool] builds for an existing file. *)
Definition build_cmd (path : string) (arguments : Arguments) : list string :=
  let cmd := ["java"; "-jar"; CFR_JAR_PATH; path] in
  let cmd :=
    match if_str (method_name arguments) with
    | Some method_name => extend cmd ["--methodname"; method_name]
    | None => cmd
    end in
  let cmd :=
    if if_bool (ignore_exceptions arguments)
    then extend cmd ["--ignoreexceptions"; "true"] else cmd in
  let cmd :=
    if if_bool (hide_utf arguments)
    then extend cmd ["--hideutf"; "true"] else cmd in
  let cmd := extend cmd ["--comments"; "false"] in
  let cmd := extend cmd ["--showversion"; "false"] in
  let extra_options :=
    match options arguments with Some d => d | None => [] end in
  fold_left add_option extra_options cmd.

Definition call_tool (name : string) (arguments : Arguments) : M os string :=
  if negb (String.eqb name "decompile") then
    raise (ValueError ("Unknown tool (未知工具): " ++ name))
  else
    let file_path_str := file_path arguments in
    match if_str file_path_str with
    | None => raise (ValueError "file_path is required (需要 file_path 参数)")
    | Some file_path_str =>
        path <- lift (resolve os file_path_str) ;;
        path_found <- lift (path_exists os path) ;;
        if negb path_found then
          ret ("Error: File not found (文件未找到): " ++ path)
        else
          cfr_found <- lift (path_exists os CFR_JAR_PATH) ;;
          if negb cfr_found then
            ret ("Error: CFR jar not found at (CFR jar 未找到): " ++ CFR_JAR_PATH)
          else
            let cmd := build_cmd path arguments in
            run_cfr_sync cmd
    end.

End Server.

End V1.

(* ================================================================== *)
(** * A concrete environment *)
(* ================================================================== *)

(** A small file system with one archive, used to run the model on concrete
    calls. *)
Module Demo.

Import PyStr.

(** The last component of a POSIX path. *)
Fixpoint basename (p : string) : string :=
  match p with
  | EmptyString => EmptyString
  | String c p' =>
      if contains "/" p' then basename p'
      else if Ascii.eqb c "/" then p' else p
  end.

(** The tail of [s] that starts at its last dot. *)
Fixpoint from_last_dot (s : string) : option string :=
  match s with
  | EmptyString => None
  | String c s' =>
      match from_last_dot s' with
      | Some t => Some t
      | None => if Ascii.eqb c "." then Some s else None
      end
  end.

(** The suffix of the last component: from its last dot, when that dot is
    neither its first nor its last character. *)
Definition suffix (p : string) : string :=
  match basename p with
  | EmptyString => EmptyString
  | String _ rest =>
      match from_last_dot rest with
      | Some t => if String.eqb t "." then EmptyString else t
      | None => EmptyString
      end
  end.

(** The NUL character as a string. *)
Definition NUL : string := String (ascii_of_nat 0) "".

Definition class_bytes (text : string) : PyBytes.bytes :=
  PyBytes.encode_utf8 text.

(** [/opt/lib.jar].  [pkg/Foo.class] mentions [computeTotal] and [helper]
    only in string constants; [bad/Foo.class] cannot be extracted. *)
Definition lib_jar : list ZipEntry :=
  [ {| filename := "META-INF/MANIFEST.MF";
       content := Some (class_bytes "Manifest-Version: 1.0 computeTotal") |};
    {| filename := "A.class";
       content := Some (class_bytes "A java/lang/Object computeTotal ()I Code") |};
    {| filename := "B.class";
       content := Some (class_bytes "B java/lang/Object run ()V Code") |};
    {| filename := "bad/Foo.class";
       content := Some (class_bytes "bad/Foo helper computeTotal ()I Code") |};
    {| filename := "pkg/Foo.class";
       content := Some (class_bytes "pkg/Foo helper computeTotal is unused") |};
    {| filename := "other/pkg/Foo.class";
       content := Some (class_bytes "other/pkg/Foo helper ()V Code") |} ].

Definition files : list string :=
  ["cfr.jar"; "/opt/lib.jar"; "/opt/A.class"; "/opt/Quiet.class";
   "/opt/Slow.class"; "/opt/LIB.JAR"].

(** The child process: what the decompiler prints for each target file. *)
Definition java (cmd : list string) : res CompletedProcess :=
  let target := nth 3 cmd EmptyString in
  if endswith target "/A.class" then
    Ok {| stdout := "class A { int computeTotal() { return 1; } }";
          stderr := EmptyString |}
  else if endswith target "/other/pkg/Foo.class" then
    Ok {| stdout := "package other.pkg; class Foo { void helper() {} }";
          stderr := "warning: recovered" |}
  else if endswith target "/pkg/Foo.class" then
    Ok {| stdout := "package pkg; class Foo { }"; stderr := EmptyString |}
  else if endswith target "/Quiet.class" then
    Ok {| stdout := "class Quiet { }"; stderr := LF |}
  else if endswith target "/Slow.class" then
    Raise (TimeoutExpired "Command timed out")
  else if endswith target ".jar" then
    Ok {| stdout := "/* whole archive */"; stderr := EmptyString |}
  else Raise (OtherError "[Errno 2] No such file or directory: 'java'").

Definition os : OS :=
  {| World := nat;
     resolve := fun p =>
       if contains NUL p then Raise (ValueError "embedded null byte") else Ok p;
     path_exists := fun p =>
       if (255 <? String.length (basename p))%nat
       then Raise (OtherError "[Errno 36] File name too long")
       else Ok (existsb (String.eqb p) files);
     path_name := basename;
     path_suffix := suffix;
     st_size := fun _ => 2048%Z;
     zip_read := fun p =>
       if String.eqb p "/opt/lib.jar" then Some lib_jar else None;
     mkdtemp := fun w => ("/tmp/tmp" ++ str_of_Z (Z.of_nat w), S w);
     rmtree := fun _ w => w;
     zip_extract := fun _ member dest w =>
       if String.eqb member "bad/Foo.class"
       then (Raise (OtherError "Bad CRC-32 for file 'bad/Foo.class'"), w)
       else (Ok (dest ++ "/" ++ member), w);
     subprocess_run := fun cmd _ w => (java cmd, w) |}.

Definition start : state os := Build_state os 0%nat [].


(** A call on [path] with two flags set. *)
Definition call (path : string) (c m : option string) : Arguments :=
  {| file_path := Some path; class_name := c; method_name := m;
     ignore_exceptions := Some true; hide_utf := None;
     options := Some [("sugarboxing", PyBool false)] |}.

End Demo.

(* ================================================================== *)
(** * Views used to state further properties *)
(* ================================================================== *)

(** None of these is a function of the program; each names what a loop of
    the program reads or produces, so that a theorem can say it. *)
Module Views.

Import PyStr.

(** The members the loop of [find_classes_in_jar] gets to look at: those
    before the first [.class] member whose content cannot be read. *)
Fixpoint scanned (infolist : list ZipEntry) : list ZipEntry :=
  match infolist with
  | [] => []
  | file_info :: rest =>
      if endswith (filename file_info) ".class" then
        match content file_info with
        | Some _ => file_info :: scanned rest
        | None => []
        end
      else file_info :: scanned rest
  end.

(** A [.class] member whose bytes hold the token. *)
Definition holds_token (method_bytes : PyBytes.bytes) (file_info : ZipEntry) : bool :=
  endswith (filename file_info) ".class"
  && match content file_info with
     | Some c => PyBytes.contains method_bytes c
     | None => false
     end.

(** The members of an archive, none when it cannot be opened. *)
Definition members (os : OS) (jar_path : string) : list ZipEntry :=
  match zip_read os jar_path with
  | Some infolist => infolist
  | None => []
  end.

(** What the loop of [decompile_jar_class_sync] appends for a candidate,
    given what the candidate gave: its labeled output when that is not
    blank, nothing when it is, a failure block when the extraction raised. *)
Definition class_block (o : string * res string) : list string :=
  match snd o with
  | Ok output =>
      if truthy output && (0 <? String.length (strip output))%nat
      then [("// Source: " ++ fst o ++ LF) ++ output]
      else []
  | Raise e =>
      ["/* Failed to decompile " ++ fst o ++ ": " ++ str_of_exn e ++ " */"]
  end.

Definition class_blocks (obs : list (string * res string)) : list string :=
  flat_map class_block obs.

(** The members extracted, the directories created and the directories
    removed, as a trace records them. *)
Fixpoint extracted (tr : list event) : list string :=
  match tr with
  | [] => []
  | EvExtract _ member _ :: rest => member :: extracted rest
  | _ :: rest => extracted rest
  end.

Fixpoint created (tr : list event) : list string :=
  match tr with
  | [] => []
  | EvMkdtemp d :: rest => d :: created rest
  | _ :: rest => created rest
  end.

Fixpoint removed (tr : list event) : list string :=
  match tr with
  | [] => []
  | EvRmtree d :: rest => d :: removed rest
  | _ :: rest => removed rest
  end.

(** The commands started, as a trace records them. *)
Fixpoint spawned (tr : list event) : list (list string) :=
  match tr with
  | [] => []
  | EvSpawn cmd _ :: rest => cmd :: spawned rest
  | _ :: rest => spawned rest
  end.

(** An event of the candidate loop of an archive strategy: an extraction
    from the archive into the temporary directory, or a decompiler run on
    some file with the given flags under the 60 second timeout. *)
Definition candidate_event (jar_path temp_path : string)
           (base_cmd_args : list string) (e : event) : Prop :=
  match e with
  | EvExtract jar _ dest => jar = jar_path /\ dest = temp_path
  | EvSpawn cmd t =>
      t = 60%Z /\
      exists target, cmd = extend ["java"; "-jar"; "cfr.jar"; target] base_cmd_args
  | _ => False
  end.

(** A child process, when one is started, is the decompiler under the 60
    second timeout. *)
Definition decompiler_event (e : event) : Prop :=
  match e with
  | EvSpawn cmd t =>
      t = 60%Z /\ exists rest, cmd = "java" :: "-jar" :: "cfr.jar" :: rest
  | _ => True
  end.

(** How [call_tool] renders the value of an option. *)
Definition render (value : pyvalue) : string :=
  if isinstance_bool value then lower (py_str value) else py_str value.

(** The two command-line words of an option with a valid key, none for the
    others. *)
Definition option_flags (item : string * pyvalue) : list string :=
  if V2.validate_option_key (fst item)
  then ["--" ++ fst item; render (snd item)]
  else [].

(** The flags that do not depend on [options]. *)
Definition fixed_flags (arguments : Arguments) : list string :=
  ((if if_bool (ignore_exceptions arguments)
    then ["--ignoreexceptions"; "true"] else [])
   ++ (if if_bool (hide_utf arguments) then ["--hideutf"; "true"] else [])
   ++ ["--comments"; "false"; "--showversion"; "false"])%list.

Definition given_options (arguments : Arguments) : list (string * pyvalue) :=
  match options arguments with
  | Some d => d
  | None => []
  end.


End Views.

(* ================================================================== *)
(** * Facts about the string operations *)
(* ================================================================== *)

Section StringFacts.

Import PyStr.

Lemma append_nil_r (s : string) : s ++ EmptyString = s.
Proof. induction s as [|c s IH]; simpl; [reflexivity | now rewrite IH]. Qed.

Lemma append_assoc (a b c : string) : (a ++ b) ++ c = a ++ (b ++ c).
Proof. induction a as [|x a IH]; simpl; [reflexivity | now rewrite IH]. Qed.

Lemma append_inj_l (p a b : string) : p ++ a = p ++ b -> a = b.
Proof.
  induction p as [|c p IH]; simpl; intro H; [exact H|].
  injection H as H. now apply IH.
Qed.

Lemma startswith_spec (s p : string) :
  startswith s p = true <-> exists t, s = p ++ t.
Proof.
  revert s. induction p as [|a p IH]; intro s; simpl.
  - split; [intros _; now exists s | reflexivity].
  - destruct s as [|b s].
    + split; [discriminate | intros [t Ht]; discriminate].
    + rewrite andb_true_iff, Ascii.eqb_eq, IH. split.
      * intros [-> [t ->]]. now exists t.
      * intros [t Ht]. injection Ht as -> ->. split; [reflexivity | now exists t].
Qed.

Lemma endswith_spec (s suf : string) :
  endswith s suf = true <-> exists p, s = p ++ suf.
Proof.
  induction s as [|c s IH]; cbn [endswith].
  - rewrite orb_false_r, String.eqb_eq. split.
    + intros <-. now exists EmptyString.
    + intros [p Hp]. destruct p; simpl in Hp; [exact Hp | discriminate].
  - rewrite orb_true_iff, String.eqb_eq, IH. split.
    + intros [<- | [p ->]]; [now exists EmptyString | now exists (String c p)].
    + intros [p Hp]. destruct p as [|x p]; simpl in Hp.
      * now left.
      * injection Hp as -> ->. right. now exists p.
Qed.

Lemma contains_spec (sub s : string) :
  contains sub s = true <-> exists p t, s = p ++ sub ++ t.
Proof.
  induction s as [|c s IH].
  - cbn [contains]. rewrite orb_false_r, startswith_spec. split.
    + intros [t Ht]. now exists EmptyString, t.
    + intros [p [t Ht]]. destruct p; simpl in Ht; [now exists t | discriminate].
  - cbn [contains]. rewrite orb_true_iff, startswith_spec, IH. split.
    + intros [[t Ht] | [p [t ->]]].
      * now exists EmptyString, t.
      * now exists (String c p), t.
    + intros [p [t Ht]]. destruct p as [|x p]; simpl in Ht.
      * left. now exists t.
      * injection Ht as -> ->. right. now exists p, t.
Qed.

Lemma endswith_refl (s : string) : endswith s s = true.
Proof. apply endswith_spec. now exists EmptyString. Qed.

Lemma endswith_app (p suf : string) : endswith (p ++ suf) suf = true.
Proof. apply endswith_spec. now exists p. Qed.

Lemma endswith_trans (s t u : string) :
  endswith s t = true -> endswith t u = true -> endswith s u = true.
Proof.
  rewrite !endswith_spec. intros [p ->] [q ->].
  exists (p ++ q). now rewrite append_assoc.
Qed.

(** A string without a dot has no occurrence of a pattern that starts with
    a dot, so [replace] leaves it as it is. *)
Lemma replace_from_no_dot (old new s : string) :
  contains "." s = false ->
  replace_from (String "." old) new 0 s = s.
Proof.
  induction s as [|c s IH]; [reflexivity|].
  cbn [contains]. rewrite orb_false_iff. intros [Hc Hs].
  cbn [replace_from].
  assert (Hst : startswith (String c s) (String "." old) = false).
  { cbn [startswith] in *. rewrite andb_true_r in Hc.
    now rewrite Hc. }
  rewrite Hst. now rewrite IH.
Qed.

Lemma replace_from_skip_all (old new : string) (n : nat) (s : string) :
  String.length s <= n -> replace_from old new n s = EmptyString.
Proof.
  revert n. induction s as [|c s IH]; intros n Hn; [reflexivity|].
  simpl in Hn. destruct n as [|n]; [lia|]. cbn [replace_from].
  apply IH. lia.
Qed.

(** A dot-free name followed by the suffix [old]: [replace] removes the
    suffix. *)
Lemma replace_from_strip_suffix (old s : string) :
  contains "." s = false ->
  replace_from (String "." old) EmptyString 0 (s ++ String "." old) = s.
Proof.
  induction s as [|c s IH].
  - intros _. cbn [String.append replace_from].
    assert (Hst : startswith (String "." old) (String "." old) = true)
      by (apply startswith_spec; exists EmptyString; now rewrite append_nil_r).
    rewrite Hst. cbn [String.append].
    apply replace_from_skip_all. simpl. lia.
  - cbn [contains]. rewrite orb_false_iff. intros [Hc Hs].
    cbn [String.append replace_from].
    assert (Hst : startswith (String c (s ++ String "." old)) (String "." old) = false).
    { cbn [startswith] in *. rewrite andb_true_r in Hc. now rewrite Hc. }
    rewrite Hst. now rewrite IH.
Qed.

(** Replacing a one-character pattern by one character is a character by
    character translation. *)
Lemma replace_char (a b : ascii) (s : string) :
  replace s (String a "") (String b "") = translate a b s.
Proof.
  unfold replace. induction s as [|c s IH]; [reflexivity|].
  cbn [replace_from startswith translate String.length Nat.sub].
  rewrite andb_true_r.
  destruct (Ascii.eqb a c); cbn [String.append]; now rewrite IH.
Qed.

(** Every joined piece occurs in the joined text. *)
Lemma join_contains (sep b : string) (l : list string) :
  In b l -> contains b (join sep l) = true.
Proof.
  intro Hin. apply contains_spec. unfold join.
  induction l as [|x l IH]; [destruct Hin|].
  destruct Hin as [-> | Hin].
  - destruct l as [|y l].
    + exists "", "". cbn. now rewrite append_nil_r.
    + exists "". eexists. cbn [String.concat String.append]. reflexivity.
  - destruct (IH Hin) as [p [t Hpt]].
    destruct l as [|y l]; [destruct Hin|].
    exists (x ++ sep ++ p), t.
    change (String.concat sep (x :: y :: l))
      with (x ++ sep ++ String.concat sep (y :: l)).
    rewrite Hpt. now rewrite !append_assoc.
Qed.

Lemma strip_empty : strip EmptyString = EmptyString.
Proof. reflexivity. Qed.

End StringFacts.

Section BytesFacts.

Import PyBytes.

Lemma byte_eqb_eq (x y : byte) : Byte.eqb x y = true <-> x = y.
Proof. split; [apply Byte.byte_dec_bl | apply Byte.byte_dec_lb]. Qed.

Lemma bytes_startswith_spec (b p : bytes) :
  startswith b p = true <-> exists t, b = (p ++ t)%list.
Proof.
  revert b. induction p as [|x p IH]; intro b; simpl.
  - split; [intros _; now exists b | reflexivity].
  - destruct b as [|y b].
    + split; [discriminate | intros [t Ht]; discriminate].
    + rewrite andb_true_iff, byte_eqb_eq, IH. split.
      * intros [-> [t ->]]. now exists t.
      * intros [t Ht]. injection Ht as -> ->. split; [reflexivity | now exists t].
Qed.

Lemma bytes_contains_spec (sub b : bytes) :
  contains sub b = true <-> exists p t, b = (p ++ sub ++ t)%list.
Proof.
  induction b as [|c b IH].
  - cbn [contains]. rewrite orb_false_r, bytes_startswith_spec. split.
    + intros [t Ht]. now exists [], t.
    + intros [p [t Ht]]. destruct p; simpl in Ht; [now exists t | discriminate].
  - cbn [contains]. rewrite orb_true_iff, bytes_startswith_spec, IH. split.
    + intros [[t Ht] | [p [t ->]]].
      * now exists [], t.
      * now exists (c :: p), t.
    + intros [p [t Ht]]. destruct p as [|x p]; simpl in Ht.
      * left. now exists t.
      * injection Ht as -> ->. right. now exists p, t.
Qed.

End BytesFacts.

(* ================================================================== *)
(** * The archive scanner *)
(* ================================================================== *)

Section Scanner.

Import PyStr.

Variable os : OS.

Lemma class_matches_suffix (target_path : string) (exact_match : bool)
      (name : string) :
  endswith target_path ".class" = true ->
  V2.class_matches target_path exact_match name = true ->
  endswith name ".class" = true.
Proof.
  intros Ht. unfold V2.class_matches. destruct exact_match.
  - rewrite String.eqb_eq. now intros ->.
  - rewrite orb_true_iff, String.eqb_eq. intros [H | ->]; [|exact Ht].
    apply endswith_trans with (t := "/" ++ target_path); [exact H|].
    apply endswith_spec in Ht. destruct Ht as [p ->].
    apply endswith_spec. now exists (String "/" p).
Qed.

Lemma fold_match_class (target_path : string) (exact_match : bool)
      (infolist : list ZipEntry) (acc : list string) :
  endswith target_path ".class" = true ->
  fold_left (V2.match_class target_path exact_match) infolist acc =
  (acc ++ filter (V2.class_matches target_path exact_match) (map filename infolist))%list.
Proof.
  intro Ht. revert acc.
  induction infolist as [|e rest IH]; intro acc; cbn [fold_left map filter].
  - now rewrite app_nil_r.
  - rewrite IH. unfold V2.match_class.
    destruct (V2.class_matches target_path exact_match (filename e)) eqn:Hm.
    + rewrite (class_matches_suffix _ _ _ Ht Hm).
      unfold V2.class_matches in Hm. destruct exact_match.
      * rewrite Hm. unfold append. now rewrite <- app_assoc.
      * rewrite Hm. unfold append. now rewrite <- app_assoc.
    + unfold V2.class_matches in Hm.
      destruct exact_match; rewrite Hm;
        now destruct (endswith (filename e) ".class").
Qed.

Lemma find_class_by_name_in_jar_filter (jar_path class_name : string) :
  V2.find_class_by_name_in_jar os jar_path class_name =
  let exact_match :=
    contains "." class_name && negb (endswith class_name ".class") in
  let target_path :=
    if exact_match then replace class_name "." "/" ++ ".class"
    else replace class_name ".class" "" ++ ".class" in
  filter (V2.class_matches target_path exact_match) (V2.entry_names os jar_path).
Proof.
  unfold V2.find_class_by_name_in_jar, V2.entry_names. cbv zeta.
  destruct (contains "." class_name && negb (endswith class_name ".class"));
    destruct (zip_read os jar_path) as [infolist|]; try reflexivity;
    now rewrite fold_match_class by apply endswith_app.
Qed.

(** X2. A simple name given with its [.class] suffix is looked up like the
    bare name: for a dot-free [name], the query [name.class] returns exactly
    the entries whose path ends with [/name.class] or is [name.class]. *)
Lemma find_class_by_name_in_jar_file_name (jar_path name : string) :
  contains "." name = false ->
  V2.find_class_by_name_in_jar os jar_path (name ++ ".class") =
  filter (fun n => endswith n ("/" ++ name ++ ".class")
                   || String.eqb n (name ++ ".class"))
         (V2.entry_names os jar_path).
Proof.
  intro Hdot. rewrite find_class_by_name_in_jar_filter. cbv zeta.
  rewrite endswith_app, andb_false_r.
  assert (Hrep : replace (name ++ ".class") ".class" "" = name)
    by (apply replace_from_strip_suffix; exact Hdot).
  now rewrite Hrep.
Qed.

Lemma filter_eqb_NoDup (target : string) (l : list string) :
  NoDup l -> List.length (filter (fun n => String.eqb n target) l) <= 1.
Proof.
  induction 1 as [|x l Hx Hl IH]; cbn [filter]; [simpl; lia|].
  destruct (String.eqb x target) eqn:E; [|exact IH].
  apply String.eqb_eq in E. subst x.
  assert (Hnil : filter (fun n => String.eqb n target) l = []).
  { clear IH Hl. induction l as [|y l IHl]; [reflexivity|]. cbn [filter].
    destruct (String.eqb y target) eqn:E.
    - apply String.eqb_eq in E. subst y. exfalso. apply Hx. now left.
    - apply IHl. intro H. apply Hx. now right. }
  rewrite Hnil. simpl. lia.
Qed.

(** The candidates [scan_classes] adds all satisfy the scan's test. *)
Lemma scan_classes_sound (method_bytes : PyBytes.bytes)
      (infolist : list ZipEntry) (candidates : list string) (c : string) :
  In c (V2.scan_classes method_bytes infolist candidates) ->
  In c candidates \/
  exists e b, In e infolist /\ filename e = c /\ endswith c ".class" = true /\
              content e = Some b /\ PyBytes.contains method_bytes b = true.
Proof.
  revert candidates.
  induction infolist as [|e rest IH]; intro candidates; cbn [V2.scan_classes].
  - now left.
  - destruct (endswith (filename e) ".class") eqn:Hs.
    + destruct (content e) as [b|] eqn:Hc; [|now left].
      destruct (PyBytes.contains method_bytes b) eqn:Hb; intro H;
        apply IH in H; destruct H as [H | [e' [b' [Hin H]]]].
      * unfold append in H. apply in_app_or in H.
        destruct H as [H | [<- | []]]; [now left|].
        right. exists e, b. repeat split; auto. now left.
      * right. exists e', b'. split; [now right | exact H].
      * now left.
      * right. exists e', b'. split; [now right | exact H].
    + intro H. apply IH in H. destruct H as [H | [e' [b' [Hin H]]]]; [now left|].
      right. exists e', b'. split; [now right | exact H].
Qed.

End Scanner.

(** C5. The class-name lookup.  For a fully-qualified query (it contains a
    dot and does not end in [.class]) the candidates are exactly the archive
    entries whose path is the query with every dot replaced by a slash,
    followed by [.class]: all candidates are that one path, and an archive
    of distinct entry paths gives at most one.  For a simple name (no dot)
    the candidates are exactly the entries whose path is [Name.class] or
    ends with [/Name.class], in every package, all of them, in archive
    order. *)
Theorem find_class_by_name_in_jar_exact_or_simple
        (os : OS) (jar_path class_name : string) :
  let found := V2.find_class_by_name_in_jar os jar_path class_name in
  let names := V2.entry_names os jar_path in
  (PyStr.contains "." class_name = true ->
   PyStr.endswith class_name ".class" = false ->
   let target := PyStr.replace class_name "." "/" ++ ".class" in
   found = filter (fun n => String.eqb n target) names
   /\ (forall n, In n found <-> In n names /\ n = target)
   /\ (forall x y, In x found -> In y found -> x = y)
   /\ (NoDup names -> List.length found <= 1))
  /\
  (PyStr.contains "." class_name = false ->
   let target := class_name ++ ".class" in
   found = filter (fun n => PyStr.endswith n ("/" ++ target) || String.eqb n target) names
   /\ (forall n, In n found <->
                 In n names /\ (n = target \/ exists p, n = p ++ "/" ++ target))).
Proof.
  cbv zeta. rewrite find_class_by_name_in_jar_filter. cbv zeta. split.
  - intros Hdot Hsuf. rewrite Hdot, Hsuf. cbn [andb negb V2.class_matches].
    set (target := PyStr.replace class_name "." "/" ++ ".class").
    assert (Hin : forall n,
               In n (filter (fun n => String.eqb n target) (V2.entry_names os jar_path))
               <-> In n (V2.entry_names os jar_path) /\ n = target).
    { intro n. rewrite filter_In, String.eqb_eq. reflexivity. }
    change (V2.class_matches target true) with (fun n => String.eqb n target).
    split; [reflexivity|]. split; [exact Hin|]. split.
    + intros x y Hx Hy. apply Hin in Hx. apply Hin in Hy.
      destruct Hx as [_ ->]. now destruct Hy as [_ ->].
    + apply filter_eqb_NoDup.
  - intros Hdot. rewrite Hdot. cbn [andb].
    assert (Hrep : PyStr.replace class_name ".class" "" = class_name)
      by (apply replace_from_no_dot; exact Hdot).
    rewrite Hrep. split; [reflexivity|].
    intro n. rewrite filter_In. unfold V2.class_matches.
    rewrite orb_true_iff, String.eqb_eq, endswith_spec. tauto.
Qed.

(** C6. Soundness of the method-byte scan: every entry it returns ends with
    [.class] and is an archive entry whose raw bytes contain the UTF-8
    encoding of the token as a contiguous byte sequence. *)
Theorem find_classes_in_jar_sound
        (os : OS) (jar_path method_name c : string) :
  In c (V2.find_classes_in_jar os jar_path method_name) ->
  PyStr.endswith c ".class" = true /\
  (exists p, c = p ++ ".class") /\
  exists infolist e b pre post,
    zip_read os jar_path = Some infolist /\ In e infolist /\
    filename e = c /\ content e = Some b /\
    b = (pre ++ PyBytes.encode_utf8 method_name ++ post)%list.
Proof.
  unfold V2.find_classes_in_jar.
  destruct (zip_read os jar_path) as [infolist|]; [|intros []].
  intro H. apply scan_classes_sound in H.
  destruct H as [[] | [e [b [Hin [Hn [Hs [Hc Hb]]]]]]].
  split; [exact Hs|]. split; [now apply endswith_spec|].
  apply bytes_contains_spec in Hb. destruct Hb as [pre [post Hb]].
  exists infolist, e, b, pre, post. auto.
Qed.

(* ================================================================== *)
(** * The process runner *)
(* ================================================================== *)

Section Runner.

Import PyStr.

Variable os : OS.

Lemma stderr_test (s : string) :
  truthy s && (0 <? String.length (strip s))%nat = negb (String.eqb (strip s) "").
Proof.
  destruct s as [|c s]; [reflexivity|].
  cbn [truthy String.eqb negb andb].
  now destruct (strip (String c s)).
Qed.

(** The text [V2.run_cfr_sync] returns, by the outcome of the child. *)
Lemma run_cfr_sync_eq (cmd : list string) (st : state os) :
  V2.run_cfr_sync os cmd st =
  (Ok (match fst (subprocess_run os cmd 60 (world st)) with
       | Ok p =>
           if String.eqb (strip (stderr p)) "" then stdout p
           else stdout p ++ V2.stderr_block (stderr p)
       | Raise (TimeoutExpired _) => V2.timeout_message
       | Raise e => "/* Error executing CFR: " ++ str_of_exn e ++ " */"
       end),
   log (EvSpawn cmd 60)
       (Build_state os (snd (subprocess_run os cmd 60 (world st))) (trace st))).
Proof.
  unfold V2.run_cfr_sync, try_except, bind, run_process, ret, V2.CMD_TIMEOUT_SECONDS.
  destruct (subprocess_run os cmd 60 (world st)) as [[p | e] w]; cbn [fst snd].
  - rewrite stderr_test. now destruct (String.eqb (strip (stderr p)) "").
  - now destruct e.
Qed.

Lemma run_cfr_sync_ok (cmd : list string) (st : state os) :
  exists text st',
    V2.run_cfr_sync os cmd st = (Ok text, st') /\
    trace st' = (trace st ++ [EvSpawn cmd 60])%list.
Proof.
  rewrite run_cfr_sync_eq. eexists. eexists. split; reflexivity.
Qed.

Lemma v1_run_cfr_sync_ok (cmd : list string) (st : state os) :
  exists text st',
    V1.run_cfr_sync os cmd st = (Ok text, st') /\
    trace st' = (trace st ++ [EvSpawn cmd 30])%list.
Proof.
  unfold V1.run_cfr_sync, try_except, bind, run_process, ret, V1.CMD_TIMEOUT_SECONDS.
  destruct (subprocess_run os cmd 30 (world st)) as [[p | e] w].
  - eexists. eexists. split; reflexivity.
  - destruct e; eexists; eexists; split; reflexivity.
Qed.

End Runner.

(** C3, as the code has it.  [run_cfr_sync] returns text for every command
    vector and every behaviour of the child, and never raises: on normal
    completion the text is the child's standard output, followed by the
    [CFR STDERR] comment block exactly when the standard error is not blank
    (it still has a character after [strip()]); on a timeout it is the fixed
    timeout message; on any other exception it is the [Error executing CFR]
    message with the exception's text.  One child process is started. *)
Theorem run_cfr_sync_total (os : OS) (cmd : list string) (st : state os) :
  (exists text, fst (V2.run_cfr_sync os cmd st) = Ok text)
  /\ trace (snd (V2.run_cfr_sync os cmd st)) = (trace st ++ [EvSpawn cmd 60])%list
  /\ (forall p w,
        subprocess_run os cmd 60 (world st) = (Ok p, w) ->
        (PyStr.strip (stderr p) <> "" ->
         fst (V2.run_cfr_sync os cmd st) = Ok (stdout p ++ V2.stderr_block (stderr p)))
        /\ (PyStr.strip (stderr p) = "" ->
            fst (V2.run_cfr_sync os cmd st) = Ok (stdout p)))
  /\ (forall msg w,
        subprocess_run os cmd 60 (world st) = (Raise (TimeoutExpired msg), w) ->
        fst (V2.run_cfr_sync os cmd st) = Ok V2.timeout_message)
  /\ (forall e w,
        subprocess_run os cmd 60 (world st) = (Raise e, w) ->
        (forall msg, e <> TimeoutExpired msg) ->
        fst (V2.run_cfr_sync os cmd st) =
        Ok ("/* Error executing CFR: " ++ str_of_exn e ++ " */")).
Proof.
  rewrite run_cfr_sync_eq. cbn [fst snd]. split; [eexists; reflexivity|].
  split; [reflexivity|]. split; [|split].
  - intros p w ->. cbn [fst]. split; intro H.
    + apply String.eqb_neq in H. now rewrite H.
    + now rewrite H.
  - now intros msg w ->.
  - intros e w -> H. cbn [fst]. destruct e; try reflexivity.
    now destruct (H msg).
Qed.

(* ================================================================== *)
(** * The candidate decompiler *)
(* ================================================================== *)

Section Candidates.

Import PyStr.

Variable os : OS.

Lemma retained_cons (m : string) (o : string * res string)
      (obs : list (string * res string)) :
  V2.retained m (o :: obs) = (V2.retained m [o] ++ V2.retained m obs)%list.
Proof. unfold V2.retained. cbn [flat_map]. now rewrite app_nil_r. Qed.

Lemma retained_In (m : string) (obs : list (string * res string))
      (c out : string) :
  In (c, out) (V2.retained m obs) <->
  In (c, Ok out) obs /\ contains m out = true.
Proof.
  unfold V2.retained. rewrite in_flat_map. split.
  - intros [[c' r] [Hin H]]. cbn [fst snd] in H.
    destruct r as [out'|e]; [|destruct H].
    destruct (contains m out') eqn:Hc; [|destruct H].
    destruct H as [H | []]. injection H as -> ->. now split.
  - intros [Hin Hc]. exists (c, Ok out). split; [exact Hin|].
    cbn [fst snd]. rewrite Hc. now left.
Qed.

(** One iteration of the method loop: the candidate's output is obtained,
    and its block is appended exactly when the output has the method name;
    an exception leaves [results] as it was. *)
Lemma method_step_eq (jar_path temp_path m : string) (args : list string)
      (c : string) (results : list string) (st : state os) :
  V2.method_step os jar_path temp_path m args c results st =
  (Ok (results ++
       map V2.labeled_block
           (V2.retained m [(c, fst (V2.candidate_output os jar_path temp_path args c st))]))%list,
   snd (V2.candidate_output os jar_path temp_path args c st)).
Proof.
  unfold V2.method_step, V2.candidate_output, try_except, bind.
  destruct (jar_extract os jar_path c temp_path st) as [[path | e] st1].
  - rewrite run_cfr_sync_eq. cbn [fst snd].
    unfold V2.retained. cbn [flat_map fst snd]. rewrite app_nil_r.
    match goal with |- context [contains m ?o] => destruct (contains m o) end.
    + reflexivity.
    + unfold ret. cbn [map]. now rewrite app_nil_r.
  - unfold ret. cbn [fst snd V2.retained flat_map map]. now rewrite app_nil_r.
Qed.

Lemma method_loop_eq (jar_path temp_path m : string) (args : list string)
      (candidates : list string) (results : list string) (st : state os) :
  for_each candidates (V2.method_step os jar_path temp_path m args) results st =
  (Ok (results ++
       map V2.labeled_block
           (V2.retained m
              (fst (V2.candidate_outputs os jar_path temp_path args candidates st))))%list,
   snd (V2.candidate_outputs os jar_path temp_path args candidates st)).
Proof.
  revert results st.
  induction candidates as [|c rest IH]; intros results st.
  - cbn. now rewrite app_nil_r.
  - cbn [for_each V2.candidate_outputs]. unfold bind at 1.
    rewrite method_step_eq.
    destruct (V2.candidate_output os jar_path temp_path args c st) as [r st1].
    cbn [fst snd]. rewrite IH.
    destruct (V2.candidate_outputs os jar_path temp_path args rest st1) as [obs st2].
    cbn [fst snd]. rewrite (retained_cons m (c, r) obs), map_app, app_assoc.
    reflexivity.
Qed.

Lemma candidate_outputs_names (jar_path temp_path : string) (args : list string)
      (candidates : list string) (st : state os) :
  map fst (fst (V2.candidate_outputs os jar_path temp_path args candidates st))
  = candidates.
Proof.
  revert st. induction candidates as [|c rest IH]; intro st; [reflexivity|].
  cbn [V2.candidate_outputs].
  destruct (V2.candidate_output os jar_path temp_path args c st) as [r st1].
  specialize (IH st1).
  destruct (V2.candidate_outputs os jar_path temp_path args rest st1) as [obs st2].
  cbn [fst map] in *. now rewrite IH.
Qed.

Lemma find_classes_in_jar_readable (jar_path m : string) :
  V2.find_classes_in_jar os jar_path m <> [] ->
  exists infolist, zip_read os jar_path = Some infolist.
Proof.
  unfold V2.find_classes_in_jar.
  destruct (zip_read os jar_path) as [l|]; [now exists l | congruence].
Qed.

Lemma find_class_by_name_in_jar_readable (jar_path q : string) :
  V2.find_class_by_name_in_jar os jar_path q <> [] ->
  exists infolist, zip_read os jar_path = Some infolist.
Proof.
  unfold V2.find_class_by_name_in_jar.
  destruct (contains "." q && negb (endswith q ".class"));
    (destruct (zip_read os jar_path) as [l|]; [now exists l | congruence]).
Qed.

Lemma is_empty_false {A} (l : list A) : l <> [] -> is_empty l = false.
Proof. destruct l; [congruence | reflexivity]. Qed.

(** The two messages of the method search differ whatever they mention. *)
Lemma method_messages_differ (m name : string) (size : Z) (candidates : list string) :
  V2.method_no_output m candidates <> V2.method_not_found m name size.
Proof.
  unfold V2.method_no_output, V2.method_not_found. intro H.
  cbn [String.append] in H.
  repeat match type of H with
         | String _ _ = String _ _ => injection H as H
         end.
  apply append_inj_l in H. discriminate H.
Qed.

(** The method search, once the scan has found candidates. *)
Lemma decompile_jar_method_sync_eq (jar_path m : string) (args : list string)
      (st : state os) :
  V2.find_classes_in_jar os jar_path m <> [] ->
  let candidates := V2.find_classes_in_jar os jar_path m in
  let temp := fst (mkdtemp os (world st)) in
  let st1 := log (EvMkdtemp temp)
                 (Build_state os (snd (mkdtemp os (world st))) (trace st)) in
  let run := V2.candidate_outputs os jar_path temp args candidates st1 in
  let kept := V2.retained m (fst run) in
  V2.decompile_jar_method_sync os jar_path m args st =
  (Ok (if is_empty kept then V2.method_no_output m candidates
       else join (LF ++ LF) (map V2.labeled_block kept)),
   log (EvRmtree temp)
       (Build_state os (rmtree os temp (world (snd run))) (trace (snd run)))).
Proof.
  intros Hne. cbv zeta. unfold V2.decompile_jar_method_sync.
  rewrite (is_empty_false _ Hne).
  destruct (find_classes_in_jar_readable _ _ Hne) as [infolist Hz].
  unfold bind at 1. unfold with_tempdir, bind, tempdir_create, try_finally,
    with_zipfile, tempdir_cleanup.
  rewrite Hz.
  destruct (mkdtemp os (world st)) as [temp w1]. cbn [fst snd].
  rewrite method_loop_eq. cbn [app].
  match goal with |- context [is_empty (map _ ?k)] => destruct k as [|b k'] end;
    reflexivity.
Qed.

End Candidates.

(** C1. The method search over an archive whose scan found candidates.
    Each candidate is extracted and decompiled in turn; [obs] lists, in scan
    order, what each candidate gave.  A candidate is kept exactly when it
    has a decompiler output and the method name occurs in that output, and
    the result joins the labeled blocks of the kept candidates, so that the
    block of every kept candidate occurs in the result text.  When none
    is kept the result is the [matched binary search ... but CFR produced no
    output] message, which is never equal to the [not found] message of an
    empty scan. *)
Theorem decompile_jar_method_sync_filter
        (os : OS) (jar_path method_name : string) (base_cmd_args : list string)
        (st : state os) :
  let candidates := V2.find_classes_in_jar os jar_path method_name in
  candidates <> [] ->
  let temp := fst (mkdtemp os (world st)) in
  let st1 := log (EvMkdtemp temp)
                 (Build_state os (snd (mkdtemp os (world st))) (trace st)) in
  let obs := fst (V2.candidate_outputs os jar_path temp base_cmd_args candidates st1) in
  let kept := V2.retained method_name obs in
  let result := fst (V2.decompile_jar_method_sync os jar_path method_name base_cmd_args st) in
  map fst obs = candidates
  /\ (forall c out,
        In (c, out) kept <->
        In (c, Ok out) obs /\ PyStr.contains method_name out = true)
  /\ (kept <> [] ->
      result = Ok (PyStr.join (PyStr.LF ++ PyStr.LF) (map V2.labeled_block kept)))
  /\ (forall c out text,
        In (c, Ok out) obs -> PyStr.contains method_name out = true ->
        result = Ok text ->
        PyStr.contains (V2.labeled_block (c, out)) text = true)
  /\ (kept = [] -> result = Ok (V2.method_no_output method_name candidates))
  /\ (forall name size,
        V2.method_no_output method_name candidates
        <> V2.method_not_found method_name name size).
Proof.
  cbv zeta. intro Hne.
  rewrite (decompile_jar_method_sync_eq os jar_path method_name base_cmd_args st Hne).
  cbv zeta. cbn [fst]. split; [apply candidate_outputs_names|].
  split; [intros c out; apply retained_In|].
  split; [|split; [|split]].
  - intro Hk. now rewrite (is_empty_false _ Hk).
  - intros c out text Hin Hc Hres.
    assert (Hk : In (c, out)
                    (V2.retained method_name
                       (fst (V2.candidate_outputs os jar_path
                               (fst (mkdtemp os (world st))) base_cmd_args
                               (V2.find_classes_in_jar os jar_path method_name)
                               (log (EvMkdtemp (fst (mkdtemp os (world st))))
                                    (Build_state os (snd (mkdtemp os (world st)))
                                                 (trace st)))))))
      by (apply retained_In; now split).
    rewrite is_empty_false in Hres by (intro E; rewrite E in Hk; destruct Hk).
    injection Hres as <-. apply join_contains.
    now apply (in_map V2.labeled_block) in Hk.
  - now intros ->.
  - intros name size. apply method_messages_differ.
Qed.

Section Batches.

Import PyStr.

Variable os : OS.

Lemma for_each_ok {A S} (body : A -> S -> M os S) :
  (forall x acc st, exists acc' st', body x acc st = (Ok acc', st')) ->
  forall xs acc st, exists acc' st', for_each xs body acc st = (Ok acc', st').
Proof.
  intros Hbody xs. induction xs as [|x xs IH]; intros acc st.
  - now exists acc, st.
  - cbn [for_each]. unfold bind.
    destruct (Hbody x acc st) as [acc1 [st1 ->]]. apply IH.
Qed.

Lemma with_tempdir_ok {A} (body : string -> M os A) :
  (forall d st, exists a st', body d st = (Ok a, st')) ->
  forall st, exists a st', with_tempdir body st = (Ok a, st').
Proof.
  intros Hbody st. unfold with_tempdir, bind, tempdir_create, try_finally,
    tempdir_cleanup.
  destruct (mkdtemp os (world st)) as [d w].
  match goal with |- context [body d ?s] => destruct (Hbody d s) as [a [st1 ->]] end.
  eexists. eexists. reflexivity.
Qed.

(** An extraction that raises: the class search records a diagnostic block
    for the candidate. *)
Lemma class_step_extract_fails (jar_path temp_path : string) (args : list string)
      (c : string) (results : list string) (st : state os) (e : exn) (w : World os) :
  zip_extract os jar_path c temp_path (world st) = (Raise e, w) ->
  fst (V2.class_step os jar_path temp_path args c results st) =
  Ok (append results ("/* Failed to decompile " ++ c ++ ": " ++ str_of_exn e ++ " */")).
Proof.
  intro H. unfold V2.class_step, try_except, bind, jar_extract. now rewrite H.
Qed.

(** An extraction that raises: the method search appends nothing. *)
Lemma method_step_extract_fails (jar_path temp_path m : string) (args : list string)
      (c : string) (results : list string) (st : state os) (e : exn) (w : World os) :
  zip_extract os jar_path c temp_path (world st) = (Raise e, w) ->
  fst (V2.method_step os jar_path temp_path m args c results st) = Ok results.
Proof.
  intro H. unfold V2.method_step, try_except, bind, jar_extract. now rewrite H.
Qed.

(** Every iteration of the class loop completes and keeps the blocks
    gathered before it. *)
Lemma class_step_ok (jar_path temp_path : string) (args : list string)
      (c : string) (results : list string) (st : state os) :
  exists results' st',
    V2.class_step os jar_path temp_path args c results st = (Ok results', st')
    /\ exists more, results' = (results ++ more)%list.
Proof.
  unfold V2.class_step, try_except, bind.
  destruct (jar_extract os jar_path c temp_path st) as [[path | e] st1].
  - rewrite run_cfr_sync_eq.
    match goal with |- context [if ?b then _ else _] => destruct b end;
      eexists; eexists; (split; [reflexivity|]).
    + eexists. reflexivity.
    + exists []. now rewrite app_nil_r.
  - eexists. eexists. split; [reflexivity|]. eexists. reflexivity.
Qed.

Lemma decompile_jar_class_sync_ok (jar_path q : string) (args : list string)
      (st : state os) :
  exists text st', V2.decompile_jar_class_sync os jar_path q args st = (Ok text, st').
Proof.
  unfold V2.decompile_jar_class_sync.
  destruct (V2.find_class_by_name_in_jar os jar_path q) as [|c cs] eqn:Hc.
  - eexists. eexists. reflexivity.
  - cbn [is_empty]. unfold bind at 1.
    assert (Hne : V2.find_class_by_name_in_jar os jar_path q <> [])
      by (rewrite Hc; discriminate).
    destruct (find_class_by_name_in_jar_readable os _ _ Hne) as [infolist Hz].
    match goal with
    | |- context [with_tempdir ?b st] =>
        destruct (with_tempdir_ok b) with (st := st) as [results [st1 ->]]
    end.
    + intros d s. unfold with_zipfile. rewrite Hz.
      apply for_each_ok. intros x acc s'.
      destruct (class_step_ok jar_path d args x acc s') as [r [s'' [-> _]]].
      now exists r, s''.
    + destruct (is_empty results); eexists; eexists; reflexivity.
Qed.

Lemma decompile_jar_method_sync_ok (jar_path m : string) (args : list string)
      (st : state os) :
  exists text st', V2.decompile_jar_method_sync os jar_path m args st = (Ok text, st').
Proof.
  destruct (V2.find_classes_in_jar os jar_path m) as [|c cs] eqn:Hc.
  - unfold V2.decompile_jar_method_sync. rewrite Hc.
    eexists. eexists. reflexivity.
  - assert (Hne : V2.find_classes_in_jar os jar_path m <> [])
      by (rewrite Hc; discriminate).
    rewrite (decompile_jar_method_sync_eq os jar_path m args st Hne).
    eexists. eexists. reflexivity.
Qed.

(** The routes of [call_tool] once the path checks have passed. *)
Lemma call_tool_routes (arguments : Arguments) (fp path : string) (st : state os) :
  if_str (file_path arguments) = Some fp ->
  resolve os fp = Ok path ->
  path_exists os path = Ok true ->
  path_exists os V2.CFR_JAR_PATH = Ok true ->
  let base_args := V2.build_base_args arguments in
  let java := ["java"; "-jar"; "cfr.jar"; path] in
  let call := V2.call_tool os "decompile" arguments st in
  (lower (path_suffix os path) = ".jar" ->
   (forall c,
       if_str (class_name arguments) = Some c ->
       call = V2.decompile_jar_class_sync os path c base_args st)
   /\ (forall m,
         if_str (class_name arguments) = None ->
         if_str (method_name arguments) = Some m ->
         call = V2.decompile_jar_method_sync os path m
                  (base_args ++ ["--methodname"; m])%list st)
   /\ (if_str (class_name arguments) = None ->
       if_str (method_name arguments) = None ->
       call = V2.run_cfr_sync os (java ++ base_args)%list st))
  /\
  (lower (path_suffix os path) <> ".jar" ->
   (forall m,
       if_str (method_name arguments) = Some m ->
       call = V2.run_cfr_sync os (java ++ base_args ++ ["--methodname"; m])%list st)
   /\ (if_str (method_name arguments) = None ->
       call = V2.run_cfr_sync os (java ++ base_args)%list st)).
Proof.
  intros Hfp Hres Hex Hcfr base_args java call. subst call.
  unfold V2.call_tool, bind, lift. cbn [String.eqb Ascii.eqb Bool.eqb negb].
  rewrite Hfp, Hres. cbv beta iota. rewrite Hex. cbv beta iota. cbn [negb].
  rewrite Hcfr. cbv beta iota. cbn [negb]. fold base_args.
  split.
  - intros Hjar. rewrite Hjar. cbn [String.eqb Ascii.eqb Bool.eqb].
    split; [|split].
    + intros c Hc. rewrite Hc. reflexivity.
    + intros m Hc Hm. rewrite Hc, Hm. reflexivity.
    + intros Hc Hm. rewrite Hc, Hm. reflexivity.
  - intros Hjar. apply String.eqb_neq in Hjar. rewrite Hjar. split.
    + intros m Hm. rewrite Hm. reflexivity.
    + intros Hm. rewrite Hm. reflexivity.
Qed.

(** Every [decompile] call that passes the path checks completes with
    text. *)
Lemma call_tool_ok (arguments : Arguments) (fp path : string) (st : state os) :
  if_str (file_path arguments) = Some fp ->
  resolve os fp = Ok path ->
  path_exists os path = Ok true ->
  path_exists os V2.CFR_JAR_PATH = Ok true ->
  exists text st', V2.call_tool os "decompile" arguments st = (Ok text, st').
Proof.
  intros Hfp Hres Hex Hcfr.
  destruct (call_tool_routes arguments fp path st Hfp Hres Hex Hcfr) as [Hjar Hfile].
  destruct (String.eqb (lower (path_suffix os path)) ".jar") eqn:E.
  - apply String.eqb_eq in E. destruct (Hjar E) as [Hc [Hm Hn]].
    destruct (if_str (class_name arguments)) as [c|].
    + rewrite (Hc c eq_refl). apply decompile_jar_class_sync_ok.
    + destruct (if_str (method_name arguments)) as [m|].
      * rewrite (Hm m eq_refl eq_refl). apply decompile_jar_method_sync_ok.
      * rewrite (Hn eq_refl eq_refl), run_cfr_sync_eq. eexists. eexists. reflexivity.
  - apply String.eqb_neq in E. destruct (Hfile E) as [Hm Hn].
    destruct (if_str (method_name arguments)) as [m|].
    + rewrite (Hm m eq_refl), run_cfr_sync_eq. eexists. eexists. reflexivity.
    + rewrite (Hn eq_refl), run_cfr_sync_eq. eexists. eexists. reflexivity.
Qed.

(** The outcome of [call_tool] by the outcome of its path checks. *)
Lemma call_tool_checks (arguments : Arguments) (fp : string) (st : state os) :
  if_str (file_path arguments) = Some fp ->
  let call := V2.call_tool os "decompile" arguments st in
  match resolve os fp with
  | Raise e => call = (Raise e, st)
  | Ok path =>
      match path_exists os path with
      | Raise e => call = (Raise e, st)
      | Ok false => call = (Ok ("Error: File not found: " ++ path), st)
      | Ok true =>
          match path_exists os V2.CFR_JAR_PATH with
          | Raise e => call = (Raise e, st)
          | Ok false => call = (Ok "Error: CFR jar not found at: cfr.jar", st)
          | Ok true => exists text st', call = (Ok text, st')
          end
      end
  end.
Proof.
  intros Hfp call.
  destruct (resolve os fp) as [path | e] eqn:Hres.
  2:{ subst call. unfold V2.call_tool, bind, lift.
      cbn [String.eqb Ascii.eqb Bool.eqb negb]. now rewrite Hfp, Hres. }
  destruct (path_exists os path) as [[|] | e] eqn:Hex.
  - destruct (path_exists os V2.CFR_JAR_PATH) as [[|] | e] eqn:Hcfr.
    + exact (call_tool_ok arguments fp path st Hfp Hres Hex Hcfr).
    + subst call. unfold V2.call_tool, bind, lift.
      cbn [String.eqb Ascii.eqb Bool.eqb negb].
      rewrite Hfp, Hres. cbv beta iota. rewrite Hex. cbv beta iota.
      cbn [negb]. now rewrite Hcfr.
    + subst call. unfold V2.call_tool, bind, lift.
      cbn [String.eqb Ascii.eqb Bool.eqb negb].
      rewrite Hfp, Hres. cbv beta iota. rewrite Hex. cbv beta iota.
      cbn [negb]. now rewrite Hcfr.
  - subst call. unfold V2.call_tool, bind, lift.
    cbn [String.eqb Ascii.eqb Bool.eqb negb].
    rewrite Hfp, Hres. cbv beta iota. now rewrite Hex.
  - subst call. unfold V2.call_tool, bind, lift.
    cbn [String.eqb Ascii.eqb Bool.eqb negb].
    rewrite Hfp, Hres. cbv beta iota. now rewrite Hex.
Qed.

(** The same for the first server, whose last case is one decompiler run. *)
Lemma v1_call_tool_checks (arguments : Arguments) (fp : string) (st : state os) :
  if_str (file_path arguments) = Some fp ->
  let call := V1.call_tool os "decompile" arguments st in
  match resolve os fp with
  | Raise e => call = (Raise e, st)
  | Ok path =>
      match path_exists os path with
      | Raise e => call = (Raise e, st)
      | Ok false =>
          call = (Ok ("Error: File not found (文件未找到): " ++ path), st)
      | Ok true =>
          match path_exists os V1.CFR_JAR_PATH with
          | Raise e => call = (Raise e, st)
          | Ok false =>
              call = (Ok "Error: CFR jar not found at (CFR jar 未找到): cfr.jar", st)
          | Ok true => call = V1.run_cfr_sync os (V1.build_cmd path arguments) st
          end
      end
  end.
Proof.
  intros Hfp call.
  destruct (resolve os fp) as [path | e] eqn:Hres.
  2:{ subst call. unfold V1.call_tool, bind, lift.
      cbn [String.eqb Ascii.eqb Bool.eqb negb]. now rewrite Hfp, Hres. }
  destruct (path_exists os path) as [[|] | e] eqn:Hex.
  - destruct (path_exists os V1.CFR_JAR_PATH) as [[|] | e] eqn:Hcfr;
      subst call; unfold V1.call_tool, bind, lift;
      cbn [String.eqb Ascii.eqb Bool.eqb negb];
      rewrite Hfp, Hres; cbv beta iota; rewrite Hex; cbv beta iota;
      cbn [negb]; now rewrite Hcfr.
  - subst call. unfold V1.call_tool, bind, lift.
    cbn [String.eqb Ascii.eqb Bool.eqb negb].
    rewrite Hfp, Hres. cbv beta iota. now rewrite Hex.
  - subst call. unfold V1.call_tool, bind, lift.
    cbn [String.eqb Ascii.eqb Bool.eqb negb].
    rewrite Hfp, Hres. cbv beta iota. now rewrite Hex.
Qed.

End Batches.

(** C7. When the archive scan finds no candidate, both archive strategies
    return at once with their not-found message and leave the state as it
    was: the trace gains no event, so no temporary directory is created, no
    entry is extracted and no child process is started.  The message of the
    method search names the token, the archive's file name and its size. *)
Theorem no_candidates_no_effects
        (os : OS) (jar_path query : string) (base_cmd_args : list string)
        (st : state os) :
  (V2.find_classes_in_jar os jar_path query = [] ->
   V2.decompile_jar_method_sync os jar_path query base_cmd_args st =
   (Ok (V2.method_not_found query (path_name os jar_path) (st_size os jar_path)), st))
  /\ (V2.find_class_by_name_in_jar os jar_path query = [] ->
      V2.decompile_jar_class_sync os jar_path query base_cmd_args st =
      (Ok (V2.class_not_found query (path_name os jar_path)), st))
  /\ (forall name size,
        PyStr.contains query (V2.method_not_found query name size) = true
        /\ PyStr.contains name (V2.method_not_found query name size) = true
        /\ PyStr.contains (PyStr.str_of_Z size) (V2.method_not_found query name size) = true)
  /\ (forall name, PyStr.contains query (V2.class_not_found query name) = true).
Proof.
  split; [|split; [|split]].
  - intro H. unfold V2.decompile_jar_method_sync. now rewrite H.
  - intro H. unfold V2.decompile_jar_class_sync. now rewrite H.
  - intros name size. unfold V2.method_not_found. repeat split; apply contains_spec.
    + exists "/* Method '". eexists. reflexivity.
    + exists ("/* Method '" ++ query ++ "' not found in any class within ").
      eexists. rewrite !append_assoc. reflexivity.
    + exists ("/* Method '" ++ query ++ "' not found in any class within " ++ name
              ++ " (scanned ").
      eexists. rewrite !append_assoc. reflexivity.
  - intro name. unfold V2.class_not_found. apply contains_spec.
    exists "/* Class '". eexists. reflexivity.
Qed.


(* ================================================================== *)
(** * The dispatcher *)
(* ================================================================== *)

(** C4. Routing of a [decompile] call on a file that resolves and exists,
    with the CFR jar in place.  The file is an archive when its suffix,
    lower-cased, is [.jar].  For an archive: a class name that is present
    (non-empty) sends the call to the class search with the base flags,
    whatever [method_name] is; a present method name without a class name
    sends it to the method search with [--methodname <name>] after the base
    flags; neither gives one decompiler run on the archive itself.  For any
    other file the call is one decompiler run on the file, with
    [--methodname <name>] after the base flags exactly when a method name is
    present. *)
Theorem call_tool_routing
        (os : OS) (arguments : Arguments) (fp path : string) (st : state os) :
  if_str (file_path arguments) = Some fp ->
  resolve os fp = Ok path ->
  path_exists os path = Ok true ->
  path_exists os V2.CFR_JAR_PATH = Ok true ->
  let base_args := V2.build_base_args arguments in
  let java := ["java"; "-jar"; "cfr.jar"; path] in
  let call := V2.call_tool os "decompile" arguments st in
  (PyStr.lower (path_suffix os path) = ".jar" ->
   (forall c,
       if_str (class_name arguments) = Some c ->
       call = V2.decompile_jar_class_sync os path c base_args st)
   /\ (forall m,
         if_str (class_name arguments) = None ->
         if_str (method_name arguments) = Some m ->
         call = V2.decompile_jar_method_sync os path m
                  (base_args ++ ["--methodname"; m])%list st)
   /\ (if_str (class_name arguments) = None ->
       if_str (method_name arguments) = None ->
       call = V2.run_cfr_sync os (java ++ base_args)%list st
       /\ trace (snd call) = (trace st ++ [EvSpawn (java ++ base_args)%list 60])%list))
  /\
  (PyStr.lower (path_suffix os path) <> ".jar" ->
   (forall m,
       if_str (method_name arguments) = Some m ->
       call = V2.run_cfr_sync os (java ++ base_args ++ ["--methodname"; m])%list st
       /\ trace (snd call) =
          (trace st ++ [EvSpawn (java ++ base_args ++ ["--methodname"; m])%list 60])%list)
   /\ (if_str (method_name arguments) = None ->
       call = V2.run_cfr_sync os (java ++ base_args)%list st
       /\ trace (snd call) = (trace st ++ [EvSpawn (java ++ base_args)%list 60])%list)).
Proof.
  intros Hfp Hres Hex Hcfr base_args java call.
  destruct (call_tool_routes os arguments fp path st Hfp Hres Hex Hcfr)
    as [Harchive Hfile].
  fold base_args java call in Harchive, Hfile.
  split.
  - intros Hjar. destruct (Harchive Hjar) as [Hc [Hm Hn]].
    split; [exact Hc|]. split; [exact Hm|].
    intros H1 H2. split; [exact (Hn H1 H2)|].
    rewrite (Hn H1 H2). now rewrite run_cfr_sync_eq.
  - intros Hjar. destruct (Hfile Hjar) as [Hm Hn]. split.
    + intros m H. split; [exact (Hm m H)|].
      rewrite (Hm m H). now rewrite run_cfr_sync_eq.
    + intros H. split; [exact (Hn H)|].
      rewrite (Hn H). now rewrite run_cfr_sync_eq.
Qed.

Section Options.

Import PyStr.

Lemma add_option_same : V1.add_option = V2.add_option.
Proof. reflexivity. Qed.

Lemma add_option_prefix (pre base : list string) (item : string * pyvalue) :
  V2.add_option (pre ++ base)%list item = (pre ++ V2.add_option base item)%list.
Proof.
  unfold V2.add_option. destruct item as [key value].
  destruct (negb (V2.validate_option_key key)); [reflexivity|].
  unfold extend. now rewrite app_assoc.
Qed.

Lemma fold_add_option_prefix (pre : list string) (opts : list (string * pyvalue))
      (base : list string) :
  fold_left V2.add_option opts (pre ++ base)%list =
  (pre ++ fold_left V2.add_option opts base)%list.
Proof.
  revert base. induction opts as [|item opts IH]; intro base; [reflexivity|].
  cbn [fold_left]. now rewrite add_option_prefix, IH.
Qed.

(** Without a method name the command of the first server is the fixed
    prefix followed by the base flags of the second. *)
Lemma v1_build_cmd_eq (path : string) (arguments : Arguments) :
  if_str (method_name arguments) = None ->
  V1.build_cmd path arguments =
  (["java"; "-jar"; "cfr.jar"; path] ++ V2.build_base_args arguments)%list.
Proof.
  intro Hm. unfold V1.build_cmd, V2.build_base_args. rewrite Hm.
  rewrite add_option_same, <- fold_add_option_prefix.
  destruct (if_bool (ignore_exceptions arguments));
    destruct (if_bool (hide_utf arguments)); reflexivity.
Qed.

(** [match_plus] takes a non-empty run of class characters and hands the
    rest to the continuation. *)
Lemma match_plus_spec (cont : string -> bool) (s : string) :
  PyRe.match_plus [("a", "z"); ("A", "Z"); ("0", "9")]%char cont s = true <->
  exists w t, s = w ++ t /\ w <> "" /\ V2.all_alnum w = true /\ cont t = true.
Proof.
  induction s as [|c s IH]; cbn [PyRe.match_plus].
  - split; [discriminate|].
    intros [w [t [Hs [Hw _]]]]. destruct w; [congruence | discriminate].
  - rewrite andb_true_iff, orb_true_iff, IH. split.
    + intros [Hc [[w [t [-> [Hw [Ha Ht]]]]] | Ht]].
      * exists (String c w), t. cbn [V2.all_alnum]. rewrite Hc, Ha.
        repeat split; [discriminate | exact Ht].
      * exists (String c ""), s. cbn [V2.all_alnum]. rewrite Hc.
        repeat split; [discriminate | exact Ht].
    + intros [w [t [Hs [Hw [Ha Ht]]]]].
      destruct w as [|c' w]; [congruence|].
      cbn [String.append] in Hs. injection Hs as -> ->.
      cbn [V2.all_alnum] in Ha. apply andb_true_iff in Ha. destruct Ha as [Hc Ha].
      split; [exact Hc|]. destruct w as [|c'' w].
      * now right.
      * left. exists (String c'' w), t. repeat split; [discriminate | exact Ha | exact Ht].
Qed.

(** The keys [validate_option_key] accepts: a non-empty run of ASCII
    letters and digits, optionally followed by one line feed (Python's [$]
    also matches just before a line feed that ends the string). *)
Lemma validate_option_key_spec (key : string) :
  V2.validate_option_key key = true <->
  exists w, w <> "" /\ V2.all_alnum w = true /\ (key = w \/ key = w ++ LF).
Proof.
  unfold V2.validate_option_key, PyRe.re_match, V2.option_key_pattern.
  cbn [PyRe.match_here andb]. rewrite match_plus_spec. split.
  - intros [w [t [-> [Hw [Ha Ht]]]]]. exists w.
    rewrite andb_true_r, orb_true_iff, !String.eqb_eq in Ht.
    repeat split; [exact Hw | exact Ha |].
    destruct Ht as [-> | ->]; [left; now rewrite append_nil_r | now right].
  - intros [w [Hw [Ha [-> | ->]]]].
    + exists w, "". rewrite append_nil_r. repeat split; auto.
    + exists w, LF. repeat split; auto.
Qed.

(** How one option is rendered. *)
Lemma add_option_valid (base : list string) (key : string) (value : pyvalue) :
  V2.validate_option_key key = true ->
  V2.add_option base (key, value) =
  extend base ["--" ++ key;
               match value with
               | PyBool true => "true"
               | PyBool false => "false"
               | _ => py_str value
               end].
Proof.
  intro H. unfold V2.add_option. rewrite H. cbn [negb].
  destruct value as [[|] | | | |]; reflexivity.
Qed.

Lemma add_option_invalid (base : list string) (key : string) (value : pyvalue) :
  V2.validate_option_key key = false ->
  V2.add_option base (key, value) = base.
Proof. intro H. unfold V2.add_option. now rewrite H. Qed.

End Options.

(** C10. For a call without [method_name] and without [class_name], on a
    file that resolves and exists with the CFR jar in place, both servers
    start exactly one child process with the same command vector: [java -jar
    cfr.jar <resolved path>] followed by the same flags in the same order.
    Only the timeout differs, 30 seconds for the first server and 60 for the
    second. *)
Theorem v1_v2_same_command
        (os : OS) (arguments : Arguments) (fp path : string) (st : state os) :
  method_name arguments = None ->
  class_name arguments = None ->
  if_str (file_path arguments) = Some fp ->
  resolve os fp = Ok path ->
  path_exists os path = Ok true ->
  path_exists os "cfr.jar" = Ok true ->
  let cmd := (["java"; "-jar"; "cfr.jar"; path]
              ++ V2.build_base_args arguments)%list in
  V1.build_cmd path arguments = cmd
  /\ trace (snd (V1.call_tool os "decompile" arguments st))
     = (trace st ++ [EvSpawn cmd V1.CMD_TIMEOUT_SECONDS])%list
  /\ trace (snd (V2.call_tool os "decompile" arguments st))
     = (trace st ++ [EvSpawn cmd V2.CMD_TIMEOUT_SECONDS])%list
  /\ V1.CMD_TIMEOUT_SECONDS = 30%Z /\ V2.CMD_TIMEOUT_SECONDS = 60%Z.
Proof.
  intros Hm Hc Hfp Hres Hex Hcfr cmd.
  assert (Hm' : if_str (method_name arguments) = None) by now rewrite Hm.
  assert (Hc' : if_str (class_name arguments) = None) by now rewrite Hc.
  assert (Hcmd : V1.build_cmd path arguments = cmd)
    by (apply v1_build_cmd_eq; exact Hm').
  split; [exact Hcmd|]. split; [|split; [|split; reflexivity]].
  - pose proof (v1_call_tool_checks os arguments fp st Hfp) as H. cbv zeta in H.
    change V1.CFR_JAR_PATH with "cfr.jar" in H.
    rewrite Hres, Hex, Hcfr in H. rewrite H, Hcmd.
    destruct (v1_run_cfr_sync_ok os cmd st) as [text [st1 [-> Ht]]]. exact Ht.
  - destruct (call_tool_routes os arguments fp path st Hfp Hres Hex Hcfr)
      as [Harchive Hfile].
    destruct (String.eqb (PyStr.lower (path_suffix os path)) ".jar") eqn:E.
    + apply String.eqb_eq in E. destruct (Harchive E) as [_ [_ Hn]].
      rewrite (Hn Hc' Hm'). now rewrite run_cfr_sync_eq.
    + apply String.eqb_neq in E. destruct (Hfile E) as [_ Hn].
      rewrite (Hn Hm'). now rewrite run_cfr_sync_eq.
Qed.

Section KeyFilter.

Import PyStr.

Lemma all_alnum_skip (c : ascii) (w t : string) :
  PyRe.in_class [("a", "z"); ("A", "Z"); ("0", "9")]%char c = false ->
  V2.all_alnum w = true ->
  contains (String c "") (w ++ t) = contains (String c "") t.
Proof.
  intros Hc. induction w as [|x w IH]; intro Hw; [reflexivity|].
  cbn [V2.all_alnum] in Hw. apply andb_true_iff in Hw. destruct Hw as [Hx Hw].
  cbn [String.append contains startswith]. rewrite (IH Hw).
  destruct (Ascii.eqb c x) eqn:E; [|reflexivity].
  apply Ascii.eqb_eq in E. subst x. congruence.
Qed.

(** A key with a character that is neither an ASCII letter or digit nor a
    line feed is rejected, so it is never turned into a flag. *)
Lemma validate_option_key_rejects (c : ascii) (key : string) :
  PyRe.in_class [("a", "z"); ("A", "Z"); ("0", "9")]%char c = false ->
  c <> LF_char ->
  contains (String c "") key = true ->
  V2.validate_option_key key = false.
Proof.
  intros Hc Hlf Hin. destruct (V2.validate_option_key key) eqn:Hv; [|reflexivity].
  apply validate_option_key_spec in Hv.
  destruct Hv as [w [_ [Ha [-> | ->]]]].
  - rewrite <- (append_nil_r w), (all_alnum_skip c w "" Hc Ha) in Hin.
    discriminate Hin.
  - rewrite (all_alnum_skip c w LF Hc Ha) in Hin.
    cbn [contains startswith LF] in Hin.
    rewrite andb_true_r, !orb_false_r in Hin.
    apply Ascii.eqb_eq in Hin. congruence.
Qed.

End KeyFilter.

(** C8, evaluated on the key [abc] followed by a line feed.  The line feed
    is a whitespace character, yet [validate_option_key] accepts the key,
    in both servers, and the dispatcher forwards it as a flag: the flag
    appears in the base flags and in the command of the child process. *)
Theorem validate_option_key_trailing_newline :
  let key := "abc" ++ PyStr.LF in
  let arguments :=
    {| file_path := Some "/opt/A.class"; class_name := None; method_name := None;
       ignore_exceptions := None; hide_utf := None;
       options := Some [(key, PyBool true); ("a-b", PyInt 1); ("x y", PyInt 2)] |} in
  In PyStr.LF PyStr.whitespace
  /\ PyStr.contains PyStr.LF key = true
  /\ V2.all_alnum key = false
  /\ V2.validate_option_key key = true
  /\ V1.validate_option_key key = true
  /\ V2.build_base_args arguments =
     ["--comments"; "false"; "--showversion"; "false"; "--" ++ key; "true"]
  /\ trace (snd (V2.call_tool Demo.os "decompile" arguments Demo.start)) =
     [EvSpawn ["java"; "-jar"; "cfr.jar"; "/opt/A.class"; "--comments"; "false";
               "--showversion"; "false"; "--" ++ key; "true"] 60].
Proof.
  cbv zeta. split; [|repeat split; vm_compute; reflexivity].
  vm_compute. tauto.
Qed.

(** C2, evaluated on an archive in which the class name [Foo] and the
    method token [helper] select the same three entries and the extraction
    of the first, [bad/Foo.class], raises.  The class search records the
    failure as a block of its own and goes on with the other two.  The
    method search also goes on, but records nothing for the failed
    candidate: its result does not mention [bad/Foo.class]. *)
Theorem method_search_drops_failed_candidate :
  let jar := "/opt/lib.jar" in
  let trio := ["bad/Foo.class"; "pkg/Foo.class"; "other/pkg/Foo.class"] in
  let by_class := V2.decompile_jar_class_sync Demo.os jar "Foo" [] Demo.start in
  let by_method :=
    V2.decompile_jar_method_sync Demo.os jar "helper" ["--methodname"; "helper"]
                                 Demo.start in
  fst (zip_extract Demo.os jar "bad/Foo.class" "/tmp/tmp0" 1) =
    Raise (OtherError "Bad CRC-32 for file 'bad/Foo.class'")
  /\ V2.find_class_by_name_in_jar Demo.os jar "Foo" = trio
  /\ V2.find_classes_in_jar Demo.os jar "helper" = trio
  /\ fst by_class =
     Ok (PyStr.join (PyStr.LF ++ PyStr.LF)
           ["/* Failed to decompile bad/Foo.class: Bad CRC-32 for file 'bad/Foo.class' */";
            "// Source: pkg/Foo.class" ++ PyStr.LF ++ "package pkg; class Foo { }";
            "// Source: other/pkg/Foo.class" ++ PyStr.LF
            ++ "package other.pkg; class Foo { void helper() {} }"
            ++ V2.stderr_block "warning: recovered"])
  /\ In (EvExtract jar "bad/Foo.class" "/tmp/tmp0") (trace (snd by_method))
  /\ fst by_method =
     Ok ("// Source: other/pkg/Foo.class" ++ PyStr.LF
         ++ "package other.pkg; class Foo { void helper() {} }"
         ++ V2.stderr_block "warning: recovered")
  /\ (forall text, fst by_method = Ok text ->
                   PyStr.contains "bad/Foo.class" text = false).
Proof.
  cbv zeta. repeat split; try (vm_compute; reflexivity).
  - vm_compute. tauto.
  - intros text H. vm_compute in H. injection H as <-. vm_compute. reflexivity.
Qed.

(** C3 as stated fails: a child that completes with a standard error made
    of one line feed has a non-empty standard error, and [run_cfr_sync]
    returns its standard output alone. *)
Lemma run_cfr_sync_blank_stderr :
  ~ (forall (os : OS) (cmd : list string) (st : state os)
            (p : CompletedProcess) (w : World os),
        subprocess_run os cmd 60 (world st) = (Ok p, w) ->
        stderr p <> "" ->
        fst (V2.run_cfr_sync os cmd st) =
        Ok (stdout p ++ V2.stderr_block (stderr p))).
Proof.
  intro H.
  specialize (H Demo.os ["java"; "-jar"; "cfr.jar"; "/opt/Quiet.class"] Demo.start
                {| stdout := "class Quiet { }"; stderr := PyStr.LF |} 0
                eq_refl).
  assert (Hne : PyStr.LF <> "") by discriminate.
  specialize (H Hne). vm_compute in H. discriminate H.
Qed.


(* ================================================================== *)
(** * The theorems on concrete calls *)
(* ================================================================== *)

(** The method search for [computeTotal] keeps [A.class] only; the search
    for [unused] finds one candidate by its bytes and keeps none. *)
Lemma decompile_jar_method_sync_filter_witness :
  (V2.find_classes_in_jar Demo.os "/opt/lib.jar" "computeTotal" <> []
   /\ fst (V2.decompile_jar_method_sync Demo.os "/opt/lib.jar" "computeTotal"
             ["--methodname"; "computeTotal"] Demo.start)
      = Ok (PyStr.join (PyStr.LF ++ PyStr.LF)
              (map V2.labeled_block
                 [("A.class", "class A { int computeTotal() { return 1; } }")])))
  /\ (V2.find_classes_in_jar Demo.os "/opt/lib.jar" "unused" <> []
      /\ fst (V2.decompile_jar_method_sync Demo.os "/opt/lib.jar" "unused"
                ["--methodname"; "unused"] Demo.start)
         = Ok (V2.method_no_output "unused" ["pkg/Foo.class"])).
Proof.
  split.
  - assert (Hne : V2.find_classes_in_jar Demo.os "/opt/lib.jar" "computeTotal" <> [])
      by (vm_compute; discriminate).
    split; [exact Hne|].
    destruct (decompile_jar_method_sync_filter
                Demo.os "/opt/lib.jar" "computeTotal"
                ["--methodname"; "computeTotal"] Demo.start Hne)
      as [_ [_ [Hkept _]]].
    rewrite Hkept; [vm_compute; reflexivity | vm_compute; discriminate].
  - assert (Hne : V2.find_classes_in_jar Demo.os "/opt/lib.jar" "unused" <> [])
      by (vm_compute; discriminate).
    split; [exact Hne|].
    destruct (decompile_jar_method_sync_filter
                Demo.os "/opt/lib.jar" "unused"
                ["--methodname"; "unused"] Demo.start Hne)
      as [_ [_ [_ [_ [Hnone _]]]]].
    rewrite Hnone; vm_compute; reflexivity.
Defined.

(** The runner on a child with a real warning, on a child with a blank
    standard error, on a timeout and on a spawn error. *)
Lemma run_cfr_sync_total_witness :
  fst (V2.run_cfr_sync Demo.os ["java"; "-jar"; "cfr.jar"; "/t/other/pkg/Foo.class"]
                       Demo.start)
  = Ok ("package other.pkg; class Foo { void helper() {} }"
        ++ V2.stderr_block "warning: recovered")
  /\ fst (V2.run_cfr_sync Demo.os ["java"; "-jar"; "cfr.jar"; "/opt/Quiet.class"]
                          Demo.start)
     = Ok "class Quiet { }"
  /\ fst (V2.run_cfr_sync Demo.os ["java"; "-jar"; "cfr.jar"; "/opt/Slow.class"]
                          Demo.start)
     = Ok V2.timeout_message
  /\ fst (V2.run_cfr_sync Demo.os ["java"; "-jar"; "cfr.jar"; "/opt/None.class"]
                          Demo.start)
     = Ok "/* Error executing CFR: [Errno 2] No such file or directory: 'java' */".
Proof.
  split; [|split; [|split]].
  - destruct (run_cfr_sync_total
                Demo.os ["java"; "-jar"; "cfr.jar"; "/t/other/pkg/Foo.class"] Demo.start)
      as [_ [_ [H _]]].
    destruct (H {| stdout := "package other.pkg; class Foo { void helper() {} }";
                   stderr := "warning: recovered" |} 0 eq_refl) as [Hyes _].
    apply Hyes. vm_compute. discriminate.
  - destruct (run_cfr_sync_total
                Demo.os ["java"; "-jar"; "cfr.jar"; "/opt/Quiet.class"] Demo.start)
      as [_ [_ [H _]]].
    destruct (H {| stdout := "class Quiet { }"; stderr := PyStr.LF |} 0 eq_refl)
      as [_ Hno].
    apply Hno. vm_compute. reflexivity.
  - destruct (run_cfr_sync_total
                Demo.os ["java"; "-jar"; "cfr.jar"; "/opt/Slow.class"] Demo.start)
      as [_ [_ [_ [H _]]]].
    exact (H "Command timed out" 0 eq_refl).
  - destruct (run_cfr_sync_total
                Demo.os ["java"; "-jar"; "cfr.jar"; "/opt/None.class"] Demo.start)
      as [_ [_ [_ [_ H]]]].
    apply (H (OtherError "[Errno 2] No such file or directory: 'java'") 0 eq_refl).
    intros msg. discriminate.
Defined.

(** Routing on the archive with both names given, and on a class file with
    a method name. *)
Lemma call_tool_routing_witness :
  V2.call_tool Demo.os "decompile"
               (Demo.call "/opt/lib.jar" (Some "pkg.Foo") (Some "helper")) Demo.start
  = V2.decompile_jar_class_sync Demo.os "/opt/lib.jar" "pkg.Foo"
      ["--ignoreexceptions"; "true"; "--comments"; "false"; "--showversion"; "false";
       "--sugarboxing"; "false"] Demo.start
  /\ trace (snd (V2.call_tool Demo.os "decompile"
                   (Demo.call "/opt/A.class" None (Some "computeTotal")) Demo.start))
     = [EvSpawn ["java"; "-jar"; "cfr.jar"; "/opt/A.class";
                 "--ignoreexceptions"; "true"; "--comments"; "false";
                 "--showversion"; "false"; "--sugarboxing"; "false";
                 "--methodname"; "computeTotal"] 60].
Proof.
  split.
  - destruct (call_tool_routing
                Demo.os (Demo.call "/opt/lib.jar" (Some "pkg.Foo") (Some "helper"))
                "/opt/lib.jar" "/opt/lib.jar" Demo.start
                eq_refl eq_refl eq_refl eq_refl) as [Hjar _].
    destruct (Hjar eq_refl) as [Hclass _].
    exact (Hclass "pkg.Foo" eq_refl).
  - destruct (call_tool_routing
                Demo.os (Demo.call "/opt/A.class" None (Some "computeTotal"))
                "/opt/A.class" "/opt/A.class" Demo.start
                eq_refl eq_refl eq_refl eq_refl) as [_ Hfile].
    assert (Hne : PyStr.lower (path_suffix Demo.os "/opt/A.class") <> ".jar")
      by (vm_compute; discriminate).
    destruct (Hfile Hne) as [Hm _].
    destruct (Hm "computeTotal" eq_refl) as [_ Ht]. exact Ht.
Defined.

(** The class lookup for a fully-qualified and for a simple name. *)
Lemma find_class_by_name_in_jar_exact_or_simple_witness :
  V2.find_class_by_name_in_jar Demo.os "/opt/lib.jar" "pkg.Foo" = ["pkg/Foo.class"]
  /\ V2.find_class_by_name_in_jar Demo.os "/opt/lib.jar" "Foo"
     = ["bad/Foo.class"; "pkg/Foo.class"; "other/pkg/Foo.class"].
Proof.
  split.
  - destruct (find_class_by_name_in_jar_exact_or_simple Demo.os "/opt/lib.jar" "pkg.Foo")
      as [Hexact _].
    destruct (Hexact eq_refl eq_refl) as [Heq _].
    rewrite Heq. vm_compute. reflexivity.
  - destruct (find_class_by_name_in_jar_exact_or_simple Demo.os "/opt/lib.jar" "Foo")
      as [_ Hsimple].
    destruct (Hsimple eq_refl) as [Heq _].
    rewrite Heq. vm_compute. reflexivity.
Defined.

(** The method scan returns [A.class], whose bytes hold the token. *)
Lemma find_classes_in_jar_sound_witness :
  In "A.class" (V2.find_classes_in_jar Demo.os "/opt/lib.jar" "computeTotal")
  /\ PyStr.endswith "A.class" ".class" = true.
Proof.
  assert (Hin : In "A.class" (V2.find_classes_in_jar Demo.os "/opt/lib.jar" "computeTotal"))
    by (vm_compute; tauto).
  split; [exact Hin|].
  exact (proj1 (find_classes_in_jar_sound Demo.os "/opt/lib.jar" "computeTotal" "A.class" Hin)).
Defined.

(** Queries without a candidate leave the trace empty. *)
Lemma no_candidates_no_effects_witness :
  V2.decompile_jar_method_sync Demo.os "/opt/lib.jar" "absent" ["--methodname"; "absent"]
                               Demo.start
  = (Ok "/* Method 'absent' not found in any class within lib.jar (scanned 2048 bytes) */",
     Demo.start)
  /\ trace (snd (V2.decompile_jar_class_sync Demo.os "/opt/lib.jar" "pkg.Bar" []
                   Demo.start)) = [].
Proof.
  split.
  - destruct (no_candidates_no_effects Demo.os "/opt/lib.jar" "absent"
                ["--methodname"; "absent"] Demo.start) as [Hm _].
    rewrite (Hm eq_refl). vm_compute. reflexivity.
  - destruct (no_candidates_no_effects Demo.os "/opt/lib.jar" "pkg.Bar" [] Demo.start)
      as [_ [Hc _]].
    rewrite (Hc eq_refl). reflexivity.
Defined.


(** Both servers on the archive, without class or method name. *)
Lemma v1_v2_same_command_witness :
  let cmd := ["java"; "-jar"; "cfr.jar"; "/opt/lib.jar";
              "--ignoreexceptions"; "true"; "--comments"; "false";
              "--showversion"; "false"; "--sugarboxing"; "false"] in
  trace (snd (V1.call_tool Demo.os "decompile" (Demo.call "/opt/lib.jar" None None)
                           Demo.start)) = [EvSpawn cmd 30]
  /\ trace (snd (V2.call_tool Demo.os "decompile" (Demo.call "/opt/lib.jar" None None)
                              Demo.start)) = [EvSpawn cmd 60].
Proof.
  destruct (v1_v2_same_command Demo.os (Demo.call "/opt/lib.jar" None None)
              "/opt/lib.jar" "/opt/lib.jar" Demo.start
              eq_refl eq_refl eq_refl eq_refl eq_refl eq_refl)
    as [_ [H1 [H2 _]]].
  split; [exact H1 | exact H2].
Defined.

(* ================================================================== *)
(** * Further properties of the archive scanner *)
(* ================================================================== *)

Section ScannerMore.

Import PyStr.

Lemma scan_classes_eq (method_bytes : PyBytes.bytes) (infolist : list ZipEntry)
      (candidates : list string) :
  V2.scan_classes method_bytes infolist candidates =
  (candidates
   ++ map filename (filter (Views.holds_token method_bytes) (Views.scanned infolist)))%list.
Proof.
  revert candidates.
  induction infolist as [|e rest IH]; intro candidates;
    cbn [V2.scan_classes Views.scanned].
  - cbn. now rewrite app_nil_r.
  - destruct (endswith (filename e) ".class") eqn:Hs.
    + destruct (content e) as [b|] eqn:Hc.
      * cbn [filter].
        replace (Views.holds_token method_bytes e)
          with (PyBytes.contains method_bytes b)
          by (unfold Views.holds_token; now rewrite Hs, Hc).
        destruct (PyBytes.contains method_bytes b); rewrite IH.
        -- unfold append. cbn [map]. now rewrite <- app_assoc.
        -- reflexivity.
      * cbn. now rewrite app_nil_r.
    + cbn [filter].
      replace (Views.holds_token method_bytes e) with false
        by (unfold Views.holds_token; now rewrite Hs).
      apply IH.
Qed.

Lemma scanned_all_readable (infolist : list ZipEntry) :
  (forall e, In e infolist -> endswith (filename e) ".class" = true ->
             content e <> None) ->
  Views.scanned infolist = infolist.
Proof.
  induction infolist as [|e rest IH]; intro H; [reflexivity|].
  cbn [Views.scanned].
  rewrite IH by (intros e' Hin; apply H; now right).
  destruct (endswith (filename e) ".class") eqn:Hs; [|reflexivity].
  destruct (content e) eqn:Hc; [reflexivity|].
  exfalso. apply (H e (or_introl eq_refl) Hs Hc).
Qed.

End ScannerMore.

(** X1. What the method-byte scan returns.  The loop looks at the members
    in archive order up to the first [.class] member it cannot read, and the
    result is, in that order, the names of the [.class] members among them
    whose bytes hold the token.  So when every [.class] member is readable
    the scan is complete: it returns every [.class] member whose bytes hold
    the token.  An archive that cannot be opened gives no candidate. *)
Theorem find_classes_in_jar_exact (os : OS) (jar_path method_name : string) :
  let token := PyBytes.encode_utf8 method_name in
  V2.find_classes_in_jar os jar_path method_name =
  map filename
      (filter (Views.holds_token token) (Views.scanned (Views.members os jar_path)))
  /\ ((forall e, In e (Views.members os jar_path) ->
                 PyStr.endswith (filename e) ".class" = true ->
                 content e <> None) ->
      V2.find_classes_in_jar os jar_path method_name =
      map filename (filter (Views.holds_token token) (Views.members os jar_path)))
  /\ (zip_read os jar_path = None ->
      V2.find_classes_in_jar os jar_path method_name = []).
Proof.
  cbv zeta.
  assert (Heq : V2.find_classes_in_jar os jar_path method_name =
                map filename
                    (filter (Views.holds_token (PyBytes.encode_utf8 method_name))
                            (Views.scanned (Views.members os jar_path)))).
  { unfold V2.find_classes_in_jar, Views.members.
    destruct (zip_read os jar_path) as [infolist|]; [|reflexivity].
    now rewrite scan_classes_eq. }
  split; [exact Heq|]. split.
  - intro H. rewrite Heq. now rewrite scanned_all_readable.
  - intro H. unfold V2.find_classes_in_jar. now rewrite H.
Qed.

Lemma find_classes_in_jar_exact_witness :
  V2.find_classes_in_jar Demo.os "/opt/lib.jar" "helper"
  = ["bad/Foo.class"; "pkg/Foo.class"; "other/pkg/Foo.class"]
  /\ V2.find_classes_in_jar Demo.os "/opt/none.jar" "helper" = [].
Proof.
  destruct (find_classes_in_jar_exact Demo.os "/opt/lib.jar" "helper") as [_ [H _]].
  destruct (find_classes_in_jar_exact Demo.os "/opt/none.jar" "helper") as [_ [_ H0]].
  split.
  - rewrite H; [vm_compute; reflexivity|].
    intros e Hin _. vm_compute in Hin.
    repeat (destruct Hin as [<- | Hin]; [discriminate|]). destruct Hin.
  - apply H0. reflexivity.
Defined.

(** On the concrete archive the query [Foo.class] finds what [Foo] finds. *)
Lemma find_class_by_name_in_jar_file_name_witness :
  V2.find_class_by_name_in_jar Demo.os "/opt/lib.jar" "Foo.class"
  = ["bad/Foo.class"; "pkg/Foo.class"; "other/pkg/Foo.class"].
Proof.
  pose proof (find_class_by_name_in_jar_file_name Demo.os "/opt/lib.jar" "Foo" eq_refl)
    as H.
  change ("Foo" ++ ".class") with "Foo.class" in H.
  rewrite H. vm_compute. reflexivity.
Defined.

(** X3. Whatever the query (empty, dotted, with or without the [.class]
    suffix), every path the class-name lookup returns is the path of a member
    of the archive and ends with [.class]; the lookup returns no more paths
    than the archive has members, and none when the archive cannot be
    opened. *)
Theorem find_class_by_name_in_jar_members
        (os : OS) (jar_path class_name : string) :
  (forall n,
      In n (V2.find_class_by_name_in_jar os jar_path class_name) ->
      In n (V2.entry_names os jar_path) /\ PyStr.endswith n ".class" = true)
  /\ List.length (V2.find_class_by_name_in_jar os jar_path class_name)
     <= List.length (Views.members os jar_path)
  /\ (zip_read os jar_path = None ->
      V2.find_class_by_name_in_jar os jar_path class_name = []).
Proof.
  rewrite find_class_by_name_in_jar_filter. cbv zeta.
  set (exact_match := PyStr.contains "." class_name
                      && negb (PyStr.endswith class_name ".class")).
  set (target_path := if exact_match
                      then PyStr.replace class_name "." "/" ++ ".class"
                      else PyStr.replace class_name ".class" "" ++ ".class").
  assert (Ht : PyStr.endswith target_path ".class" = true)
    by (unfold target_path; destruct exact_match; apply endswith_app).
  split; [|split].
  - intros n Hn. apply filter_In in Hn. destruct Hn as [Hin Hm].
    split; [exact Hin|]. exact (class_matches_suffix _ _ _ Ht Hm).
  - etransitivity; [apply filter_length_le|].
    unfold V2.entry_names, Views.members.
    destruct (zip_read os jar_path); [now rewrite length_map | reflexivity].
  - intro H. unfold V2.entry_names. now rewrite H.
Qed.

Lemma find_class_by_name_in_jar_members_witness :
  In "pkg/Foo.class" (V2.entry_names Demo.os "/opt/lib.jar")
  /\ PyStr.endswith "pkg/Foo.class" ".class" = true.
Proof.
  destruct (find_class_by_name_in_jar_members Demo.os "/opt/lib.jar" "pkg.Foo")
    as [H _].
  apply H. vm_compute. tauto.
Defined.

(* ================================================================== *)
(** * Further properties of the candidate decompiler *)
(* ================================================================== *)

Section CandidatesMore.

Import PyStr.

Variable os : OS.

Lemma class_blocks_cons (o : string * res string)
      (obs : list (string * res string)) :
  Views.class_blocks (o :: obs) = (Views.class_block o ++ Views.class_blocks obs)%list.
Proof. reflexivity. Qed.

(** One iteration of the class loop, by what the candidate gave. *)
Lemma class_step_eq (jar_path temp_path : string) (args : list string)
      (c : string) (results : list string) (st : state os) :
  V2.class_step os jar_path temp_path args c results st =
  (Ok (results
       ++ Views.class_block
            (c, fst (V2.candidate_output os jar_path temp_path args c st)))%list,
   snd (V2.candidate_output os jar_path temp_path args c st)).
Proof.
  unfold V2.class_step, V2.candidate_output, try_except, bind, extend.
  destruct (jar_extract os jar_path c temp_path st) as [[path | e] st1].
  - rewrite run_cfr_sync_eq. cbn [fst snd]. unfold Views.class_block. cbn [fst snd].
    match goal with |- context [if ?b then _ else _] => destruct b end.
    + reflexivity.
    + unfold ret. now rewrite app_nil_r.
  - reflexivity.
Qed.

Lemma class_loop_eq (jar_path temp_path : string) (args : list string)
      (candidates : list string) (results : list string) (st : state os) :
  for_each candidates (V2.class_step os jar_path temp_path args) results st =
  (Ok (results
       ++ Views.class_blocks
            (fst (V2.candidate_outputs os jar_path temp_path args candidates st)))%list,
   snd (V2.candidate_outputs os jar_path temp_path args candidates st)).
Proof.
  revert results st.
  induction candidates as [|c rest IH]; intros results st.
  - cbn. now rewrite app_nil_r.
  - cbn [for_each V2.candidate_outputs]. unfold bind at 1.
    rewrite class_step_eq.
    destruct (V2.candidate_output os jar_path temp_path args c st) as [r st1].
    cbn [fst snd]. rewrite IH.
    destruct (V2.candidate_outputs os jar_path temp_path args rest st1) as [obs st2].
    cbn [fst snd]. now rewrite class_blocks_cons, app_assoc.
Qed.

(** The class search, once the lookup has found candidates. *)
Lemma decompile_jar_class_sync_eq (jar_path q : string) (args : list string)
      (st : state os) :
  V2.find_class_by_name_in_jar os jar_path q <> [] ->
  let candidates := V2.find_class_by_name_in_jar os jar_path q in
  let temp := fst (mkdtemp os (world st)) in
  let st1 := log (EvMkdtemp temp)
                 (Build_state os (snd (mkdtemp os (world st))) (trace st)) in
  let run := V2.candidate_outputs os jar_path temp args candidates st1 in
  let blocks := Views.class_blocks (fst run) in
  V2.decompile_jar_class_sync os jar_path q args st =
  (Ok (if is_empty blocks
       then "/* Found " ++ str_of_len candidates
            ++ " class(es) but CFR produced no output. */"
       else join (LF ++ LF) blocks),
   log (EvRmtree temp)
       (Build_state os (rmtree os temp (world (snd run))) (trace (snd run)))).
Proof.
  intros Hne. cbv zeta. unfold V2.decompile_jar_class_sync.
  rewrite (is_empty_false _ Hne).
  destruct (find_class_by_name_in_jar_readable os _ _ Hne) as [infolist Hz].
  unfold bind at 1. unfold with_tempdir, bind, tempdir_create, try_finally,
    with_zipfile, tempdir_cleanup.
  rewrite Hz.
  destruct (mkdtemp os (world st)) as [temp w1]. cbn [fst snd].
  rewrite class_loop_eq. cbn [app].
  match goal with |- context [is_empty ?k] => destruct k as [|b k'] end;
    reflexivity.
Qed.

(** Every block of the class search starts with a slash, so none is empty. *)
Lemma class_blocks_head (obs : list (string * res string)) (b : string) :
  In b (Views.class_blocks obs) -> exists t, b = String "/" t.
Proof.
  unfold Views.class_blocks. rewrite in_flat_map.
  intros [[c r] [_ H]]. unfold Views.class_block in H. cbn [fst snd] in H.
  destruct r as [out | e].
  - destruct (truthy out && (0 <? String.length (strip out))%nat); [|destruct H].
    destruct H as [<- | []]. eexists. reflexivity.
  - destruct H as [<- | []]. eexists. reflexivity.
Qed.

Lemma class_blocks_length (obs : list (string * res string)) :
  List.length (Views.class_blocks obs) <= List.length obs.
Proof.
  induction obs as [|[c r] obs IH]; [apply le_n|].
  rewrite class_blocks_cons, length_app. cbn [List.length].
  assert (List.length (Views.class_block (c, r)) <= 1).
  { unfold Views.class_block. cbn [fst snd]. destruct r as [out|e]; [|apply le_n].
    destruct (truthy out && (0 <? String.length (strip out))%nat); cbn; lia. }
  lia.
Qed.

Lemma join_head (sep : string) (c : ascii) (t : string) (l : list string) :
  exists t', join sep (String c t :: l) = String c t'.
Proof.
  unfold join. destruct l as [|y l]; cbn [String.concat String.append];
    eexists; reflexivity.
Qed.

(** The trace of one candidate: its extraction, then a decompiler run when
    the extraction succeeded. *)
Lemma candidate_output_trace (jar_path temp_path : string) (args : list string)
      (c : string) (st : state os) :
  exists mid,
    trace (snd (V2.candidate_output os jar_path temp_path args c st))
    = (trace st ++ mid)%list
    /\ Forall (Views.candidate_event jar_path temp_path args) mid
    /\ Views.extracted mid = [c]
    /\ Views.created mid = [] /\ Views.removed mid = []
    /\ List.length (Views.spawned mid) <= 1.
Proof.
  unfold V2.candidate_output, bind, jar_extract.
  destruct (zip_extract os jar_path c temp_path (world st)) as [[path | e] w].
  - rewrite run_cfr_sync_eq. cbn [fst snd log trace].
    exists [EvExtract jar_path c temp_path;
            EvSpawn (extend ["java"; "-jar"; V2.CFR_JAR_PATH; path] args) 60].
    rewrite <- app_assoc. split; [reflexivity|]. split.
    + repeat constructor. now exists path.
    + cbn. repeat split; lia.
  - cbn [fst snd log trace]. exists [EvExtract jar_path c temp_path].
    split; [reflexivity|]. split; [repeat constructor|].
    cbn. repeat split; lia.
Qed.

Lemma extracted_app (a b : list event) :
  Views.extracted (a ++ b) = (Views.extracted a ++ Views.extracted b)%list.
Proof.
  induction a as [|e a IH]; [reflexivity|].
  destruct e; cbn [app Views.extracted]; now rewrite IH.
Qed.

Lemma created_app (a b : list event) :
  Views.created (a ++ b) = (Views.created a ++ Views.created b)%list.
Proof.
  induction a as [|e a IH]; [reflexivity|].
  destruct e; cbn [app Views.created]; now rewrite IH.
Qed.

Lemma removed_app (a b : list event) :
  Views.removed (a ++ b) = (Views.removed a ++ Views.removed b)%list.
Proof.
  induction a as [|e a IH]; [reflexivity|].
  destruct e; cbn [app Views.removed]; now rewrite IH.
Qed.

Lemma spawned_app (a b : list event) :
  Views.spawned (a ++ b) = (Views.spawned a ++ Views.spawned b)%list.
Proof.
  induction a as [|e a IH]; [reflexivity|].
  destruct e; cbn [app Views.spawned]; now rewrite IH.
Qed.

(** The trace of the candidate loop: every candidate is extracted once, in
    order, into the temporary directory, and at most one decompiler run is
    started per candidate. *)
Lemma candidate_outputs_trace (jar_path temp_path : string) (args : list string)
      (candidates : list string) (st : state os) :
  exists mid,
    trace (snd (V2.candidate_outputs os jar_path temp_path args candidates st))
    = (trace st ++ mid)%list
    /\ Forall (Views.candidate_event jar_path temp_path args) mid
    /\ Views.extracted mid = candidates
    /\ Views.created mid = [] /\ Views.removed mid = []
    /\ List.length (Views.spawned mid) <= List.length candidates.
Proof.
  revert st. induction candidates as [|c rest IH]; intro st.
  - exists []. cbn. rewrite app_nil_r. repeat split; auto.
  - cbn [V2.candidate_outputs].
    destruct (candidate_output_trace jar_path temp_path args c st)
      as [m1 [Ht1 [Hf1 [He1 [Hc1 [Hr1 Hs1]]]]]].
    destruct (V2.candidate_output os jar_path temp_path args c st) as [r st1].
    cbn [snd] in Ht1.
    destruct (IH st1) as [m2 [Ht2 [Hf2 [He2 [Hc2 [Hr2 Hs2]]]]]].
    destruct (V2.candidate_outputs os jar_path temp_path args rest st1) as [obs st2].
    cbn [snd] in *. exists (m1 ++ m2)%list.
    rewrite Ht2, Ht1, <- app_assoc. split; [reflexivity|].
    split; [now apply Forall_app|].
    rewrite extracted_app, created_app, removed_app, spawned_app, length_app.
    rewrite He1, He2, Hc1, Hc2, Hr1, Hr2. cbn [app List.length].
    repeat split; lia.
Qed.

(** The trace of an archive strategy that has candidates. *)
Lemma workspace_trace (jar_path : string) (args : list string)
      (candidates : list string) (st : state os) :
  let temp := fst (mkdtemp os (world st)) in
  let st1 := log (EvMkdtemp temp)
                 (Build_state os (snd (mkdtemp os (world st))) (trace st)) in
  let run := V2.candidate_outputs os jar_path temp args candidates st1 in
  exists mid,
    trace (log (EvRmtree temp)
               (Build_state os (rmtree os temp (world (snd run))) (trace (snd run))))
    = (trace st ++ [EvMkdtemp temp] ++ mid ++ [EvRmtree temp])%list
    /\ Forall (Views.candidate_event jar_path temp args) mid
    /\ Views.extracted mid = candidates
    /\ Views.created mid = [] /\ Views.removed mid = []
    /\ List.length (Views.spawned mid) <= List.length candidates.
Proof.
  cbv zeta.
  match goal with
  | |- context [V2.candidate_outputs os jar_path ?t args candidates ?s] =>
      destruct (candidate_outputs_trace jar_path t args candidates s)
        as [mid [Ht H]]
  end.
  exists mid. split; [|exact H].
  cbn [log trace] in *. rewrite Ht. now rewrite <- !app_assoc.
Qed.

End CandidatesMore.

(** X4. The class search over an archive in which the lookup found
    candidates.  Each candidate is extracted and decompiled in turn; [obs]
    lists, in lookup order, what each gave.  The result joins, in that order,
    one block per candidate: its output under a [// Source:] header when the
    output is not blank, a [Failed to decompile] block when its extraction
    raised, and nothing when the output is blank.  When no block is left the
    result is the [Found N class(es) but CFR produced no output] message. *)
Theorem decompile_jar_class_sync_blocks
        (os : OS) (jar_path class_name : string) (base_cmd_args : list string)
        (st : state os) :
  let candidates := V2.find_class_by_name_in_jar os jar_path class_name in
  candidates <> [] ->
  let temp := fst (mkdtemp os (world st)) in
  let st1 := log (EvMkdtemp temp)
                 (Build_state os (snd (mkdtemp os (world st))) (trace st)) in
  let obs := fst (V2.candidate_outputs os jar_path temp base_cmd_args candidates st1) in
  let blocks := Views.class_blocks obs in
  let result := fst (V2.decompile_jar_class_sync os jar_path class_name base_cmd_args st) in
  map fst obs = candidates
  /\ (blocks <> [] -> result = Ok (PyStr.join (PyStr.LF ++ PyStr.LF) blocks))
  /\ (blocks = [] ->
      result = Ok ("/* Found " ++ PyStr.str_of_len candidates
                   ++ " class(es) but CFR produced no output. */"))
  /\ (forall c e,
        In (c, Raise e) obs ->
        In ("/* Failed to decompile " ++ c ++ ": " ++ str_of_exn e ++ " */") blocks)
  /\ (forall c out,
        In (c, Ok out) obs -> PyStr.strip out <> "" ->
        In (("// Source: " ++ c ++ PyStr.LF) ++ out) blocks)
  /\ (forall c out,
        In (c, Ok out) obs -> PyStr.strip out = "" ->
        Views.class_block (c, Ok out) = [])
  /\ List.length blocks <= List.length candidates.
Proof.
  cbv zeta. intro Hne.
  rewrite (decompile_jar_class_sync_eq os jar_path class_name base_cmd_args st Hne).
  cbv zeta. cbn [fst].
  set (obs := fst (V2.candidate_outputs os jar_path _ base_cmd_args _ _)).
  assert (Hnames : map fst obs = V2.find_class_by_name_in_jar os jar_path class_name)
    by apply candidate_outputs_names.
  split; [exact Hnames|].
  split; [intro Hb; now rewrite (is_empty_false _ Hb)|].
  split; [now intros ->|].
  split; [|split; [|split]].
  - intros c e Hin. unfold Views.class_blocks. apply in_flat_map.
    exists (c, Raise e). split; [exact Hin | now left].
  - intros c out Hin Hs. unfold Views.class_blocks. apply in_flat_map.
    exists (c, Ok out). split; [exact Hin|].
    unfold Views.class_block. cbn [fst snd]. rewrite stderr_test.
    apply String.eqb_neq in Hs. rewrite Hs. now left.
  - intros c out _ Hs. unfold Views.class_block. cbn [fst snd].
    rewrite stderr_test, Hs. reflexivity.
  - rewrite <- Hnames, length_map. apply class_blocks_length.
Qed.

Lemma decompile_jar_class_sync_blocks_witness :
  V2.find_class_by_name_in_jar Demo.os "/opt/lib.jar" "pkg.Foo" <> []
  /\ fst (V2.decompile_jar_class_sync Demo.os "/opt/lib.jar" "pkg.Foo" [] Demo.start)
     = Ok ("// Source: pkg/Foo.class" ++ PyStr.LF ++ "package pkg; class Foo { }").
Proof.
  assert (Hne : V2.find_class_by_name_in_jar Demo.os "/opt/lib.jar" "pkg.Foo" <> [])
    by (vm_compute; discriminate).
  split; [exact Hne|].
  destruct (decompile_jar_class_sync_blocks Demo.os "/opt/lib.jar" "pkg.Foo" []
              Demo.start Hne) as [_ [H _]].
  rewrite H; [vm_compute; reflexivity | vm_compute; discriminate].
Defined.

(** X5. Neither archive strategy ever returns the empty string: with no
    candidate, or with no block kept, the result is a message, and otherwise
    it starts with the first block, which starts with a slash. *)
Theorem archive_result_never_empty
        (os : OS) (jar_path query : string) (base_cmd_args : list string)
        (st : state os) :
  fst (V2.decompile_jar_class_sync os jar_path query base_cmd_args st) <> Ok ""
  /\ fst (V2.decompile_jar_method_sync os jar_path query base_cmd_args st) <> Ok "".
Proof.
  split.
  - destruct (V2.find_class_by_name_in_jar os jar_path query) as [|c cs] eqn:Hc.
    + unfold V2.decompile_jar_class_sync. rewrite Hc. discriminate.
    + assert (Hne : V2.find_class_by_name_in_jar os jar_path query <> [])
        by (rewrite Hc; discriminate).
      rewrite (decompile_jar_class_sync_eq os jar_path query base_cmd_args st Hne).
      cbv zeta. cbn [fst].
      match goal with |- context [is_empty ?k] => destruct k as [|b k'] eqn:Hk end.
      * discriminate.
      * cbn [is_empty].
        match type of Hk with
        | ?l = _ => assert (Hin : In b l) by (rewrite Hk; now left)
        end.
        destruct (class_blocks_head _ _ Hin) as [t ->].
        destruct (join_head (PyStr.LF ++ PyStr.LF) "/" t k') as [t' ->].
        discriminate.
  - destruct (V2.find_classes_in_jar os jar_path query) as [|c cs] eqn:Hc.
    + unfold V2.decompile_jar_method_sync. rewrite Hc. discriminate.
    + assert (Hne : V2.find_classes_in_jar os jar_path query <> [])
        by (rewrite Hc; discriminate).
      rewrite (decompile_jar_method_sync_eq os jar_path query base_cmd_args st Hne).
      cbv zeta. cbn [fst].
      match goal with |- context [V2.retained ?m ?o] =>
                        destruct (V2.retained m o) as [|b k']
      end.
      * discriminate.
      * cbn [is_empty map]. unfold V2.labeled_block at 1. cbn [String.append].
        match goal with |- context [PyStr.join ?sep (String ?a ?t :: ?l)] =>
                          destruct (join_head sep a t l) as [t' ->]
        end.
        discriminate.
Qed.

(** X6. The temporary workspace of an archive strategy that has candidates.
    The call adds to the trace: the creation of one temporary directory,
    then the events of the candidate loop, then the removal of that same
    directory, whether or not extractions failed.  In the loop every
    candidate is extracted exactly once, in order, from the archive into
    that directory; every child process is the decompiler with the given
    flags under the 60 second timeout; there are at most as many child
    processes as candidates; and no other directory is created or removed. *)
Theorem archive_workspace_lifecycle
        (os : OS) (jar_path query : string) (base_cmd_args : list string)
        (st : state os) :
  let temp := fst (mkdtemp os (world st)) in
  let shape (candidates : list string) (final : state os) :=
    exists mid,
      trace final = (trace st ++ [EvMkdtemp temp] ++ mid ++ [EvRmtree temp])%list
      /\ Forall (Views.candidate_event jar_path temp base_cmd_args) mid
      /\ Views.extracted mid = candidates
      /\ Views.created mid = [] /\ Views.removed mid = []
      /\ List.length (Views.spawned mid) <= List.length candidates in
  (V2.find_class_by_name_in_jar os jar_path query <> [] ->
   shape (V2.find_class_by_name_in_jar os jar_path query)
         (snd (V2.decompile_jar_class_sync os jar_path query base_cmd_args st)))
  /\ (V2.find_classes_in_jar os jar_path query <> [] ->
      shape (V2.find_classes_in_jar os jar_path query)
            (snd (V2.decompile_jar_method_sync os jar_path query base_cmd_args st))).
Proof.
  cbv zeta. split; intro Hne.
  - rewrite (decompile_jar_class_sync_eq os jar_path query base_cmd_args st Hne).
    cbv zeta. cbn [snd]. apply workspace_trace.
  - rewrite (decompile_jar_method_sync_eq os jar_path query base_cmd_args st Hne).
    cbv zeta. cbn [snd]. apply workspace_trace.
Qed.

Lemma archive_workspace_lifecycle_witness :
  trace (snd (V2.decompile_jar_class_sync Demo.os "/opt/lib.jar" "Foo" [] Demo.start))
  = [EvMkdtemp "/tmp/tmp0";
     EvExtract "/opt/lib.jar" "bad/Foo.class" "/tmp/tmp0";
     EvExtract "/opt/lib.jar" "pkg/Foo.class" "/tmp/tmp0";
     EvSpawn ["java"; "-jar"; "cfr.jar"; "/tmp/tmp0/pkg/Foo.class"] 60;
     EvExtract "/opt/lib.jar" "other/pkg/Foo.class" "/tmp/tmp0";
     EvSpawn ["java"; "-jar"; "cfr.jar"; "/tmp/tmp0/other/pkg/Foo.class"] 60;
     EvRmtree "/tmp/tmp0"]
  /\ exists mid,
      trace (snd (V2.decompile_jar_class_sync Demo.os "/opt/lib.jar" "Foo" []
                    Demo.start))
      = ([EvMkdtemp "/tmp/tmp0"] ++ mid ++ [EvRmtree "/tmp/tmp0"])%list
      /\ Views.extracted mid = ["bad/Foo.class"; "pkg/Foo.class"; "other/pkg/Foo.class"].
Proof.
  split; [vm_compute; reflexivity|].
  assert (Hne : V2.find_class_by_name_in_jar Demo.os "/opt/lib.jar" "Foo" <> [])
    by (vm_compute; discriminate).
  destruct (archive_workspace_lifecycle Demo.os "/opt/lib.jar" "Foo" [] Demo.start)
    as [H _].
  destruct (H Hne) as [mid [Ht [_ [He _]]]].
  exists mid. split; [exact Ht|]. rewrite He. vm_compute. reflexivity.
Defined.

(* ================================================================== *)
(** * Further properties of the dispatchers *)
(* ================================================================== *)

Section DispatchMore.

Import PyStr.

Variable os : OS.

Lemma candidate_event_decompiler (jar_path temp_path : string)
      (args : list string) (e : event) :
  Views.candidate_event jar_path temp_path args e -> Views.decompiler_event e.
Proof.
  destruct e as [d | d | j m d | cmd t]; cbn; try tauto.
  intros [Ht [target ->]]. split; [exact Ht|]. now exists (target :: args).
Qed.

(** What a call with an effect-free outcome adds to the trace: nothing. *)
Lemma added_nothing (st : state os) :
  exists added,
    trace st = (trace st ++ added)%list
    /\ Forall Views.decompiler_event added
    /\ Views.created added = Views.removed added
    /\ List.length (Views.created added) <= 1.
Proof. exists []. rewrite app_nil_r. cbn. repeat split; auto. Qed.

Lemma added_one_run (cmd : list string) (st : state os) :
  (exists rest, cmd = "java" :: "-jar" :: "cfr.jar" :: rest) ->
  exists added,
    trace (snd (V2.run_cfr_sync os cmd st)) = (trace st ++ added)%list
    /\ Forall Views.decompiler_event added
    /\ Views.created added = Views.removed added
    /\ List.length (Views.created added) <= 1.
Proof.
  intro Hcmd. rewrite run_cfr_sync_eq. exists [EvSpawn cmd 60].
  cbn. repeat split; auto. constructor; [|constructor]. now split.
Qed.

Lemma added_workspace (jar_path : string) (args candidates : list string)
      (st final : state os) (temp : string) (mid : list event) :
  trace final = (trace st ++ [EvMkdtemp temp] ++ mid ++ [EvRmtree temp])%list ->
  Forall (Views.candidate_event jar_path temp args) mid ->
  Views.created mid = [] -> Views.removed mid = [] ->
  exists added,
    trace final = (trace st ++ added)%list
    /\ Forall Views.decompiler_event added
    /\ Views.created added = Views.removed added
    /\ List.length (Views.created added) <= 1.
Proof.
  intros Ht Hf Hc Hr.
  exists ([EvMkdtemp temp] ++ mid ++ [EvRmtree temp])%list.
  split; [exact Ht|]. split.
  - apply Forall_app. split; [repeat constructor|].
    apply Forall_app. split; [|repeat constructor].
    eapply Forall_impl; [|exact Hf]. apply candidate_event_decompiler.
  - rewrite !created_app, !removed_app, Hc, Hr. cbn. split; [reflexivity | lia].
Qed.

Lemma fold_add_option_flat (opts : list (string * pyvalue)) (base : list string) :
  fold_left V2.add_option opts base =
  (base ++ flat_map Views.option_flags opts)%list.
Proof.
  revert base. induction opts as [|[key value] opts IH]; intro base.
  - cbn. now rewrite app_nil_r.
  - cbn [fold_left flat_map]. rewrite IH.
    unfold V2.add_option, Views.option_flags, Views.render, extend. cbn [fst snd].
    destruct (V2.validate_option_key key); cbn [negb].
    + now rewrite <- app_assoc.
    + reflexivity.
Qed.

Lemma build_base_args_eq (arguments : Arguments) :
  V2.build_base_args arguments =
  (Views.fixed_flags arguments
   ++ flat_map Views.option_flags (Views.given_options arguments))%list.
Proof.
  unfold V2.build_base_args, Views.fixed_flags, Views.given_options, extend.
  rewrite fold_add_option_flat.
  destruct (if_bool (ignore_exceptions arguments));
    destruct (if_bool (hide_utf arguments)); reflexivity.
Qed.

(** The command of the first server: the method flag comes before the base
    flags. *)
Lemma v1_build_cmd_structure (path : string) (arguments : Arguments) :
  V1.build_cmd path arguments =
  (["java"; "-jar"; "cfr.jar"; path]
   ++ match if_str (method_name arguments) with
      | Some m => ["--methodname"; m]
      | None => []
      end
   ++ V2.build_base_args arguments)%list.
Proof.
  unfold V1.build_cmd, V2.build_base_args.
  rewrite add_option_same, app_assoc, <- fold_add_option_prefix.
  destruct (if_str (method_name arguments));
    destruct (if_bool (ignore_exceptions arguments));
    destruct (if_bool (hide_utf arguments)); reflexivity.
Qed.

Lemma option_flags_length (opts : list (string * pyvalue)) :
  List.length (flat_map Views.option_flags opts) =
  2 * List.length (filter (fun item => V2.validate_option_key (fst item)) opts).
Proof.
  induction opts as [|item opts IH]; [reflexivity|].
  cbn [flat_map filter]. rewrite length_app, IH. unfold Views.option_flags.
  destruct (V2.validate_option_key (fst item)); cbn [List.length]; lia.
Qed.

End DispatchMore.

(** X7. Whatever the tool name and the arguments, a call of the second
    server's [call_tool] only ever starts the decompiler: every child process
    it adds to the trace has a command that begins [java -jar cfr.jar] and
    runs under the 60 second timeout.  The call creates at most one temporary
    directory, and the directories it creates are the directories it
    removes. *)
Theorem call_tool_only_runs_decompiler
        (os : OS) (name : string) (arguments : Arguments) (st : state os) :
  exists added,
    trace (snd (V2.call_tool os name arguments st)) = (trace st ++ added)%list
    /\ Forall Views.decompiler_event added
    /\ Views.created added = Views.removed added
    /\ List.length (Views.created added) <= 1.
Proof.
  destruct (String.eqb name "decompile") eqn:En.
  2:{ unfold V2.call_tool. rewrite En. cbn [negb]. apply added_nothing. }
  apply String.eqb_eq in En. subst name.
  destruct (if_str (file_path arguments)) as [fp|] eqn:Hfp.
  2:{ unfold V2.call_tool. cbn [String.eqb Ascii.eqb Bool.eqb negb].
      rewrite Hfp. apply added_nothing. }
  pose proof (call_tool_checks os arguments fp st Hfp) as H. cbv zeta in H.
  destruct (resolve os fp) as [path | e] eqn:Hres;
    [|rewrite H; apply added_nothing].
  destruct (path_exists os path) as [[|] | e] eqn:Hex;
    [|rewrite H; apply added_nothing ..].
  destruct (path_exists os V2.CFR_JAR_PATH) as [[|] | e] eqn:Hcfr;
    [|rewrite H; apply added_nothing ..].
  clear H.
  destruct (call_tool_routes os arguments fp path st Hfp Hres Hex Hcfr)
    as [Harchive Hfile].
  destruct (String.eqb (PyStr.lower (path_suffix os path)) ".jar") eqn:E.
  - apply String.eqb_eq in E. destruct (Harchive E) as [Hc [Hm Hn]].
    destruct (if_str (class_name arguments)) as [c|].
    + rewrite (Hc c eq_refl).
      destruct (V2.find_class_by_name_in_jar os path c) as [|x xs] eqn:Hcs.
      * unfold V2.decompile_jar_class_sync. rewrite Hcs. apply added_nothing.
      * assert (Hne : V2.find_class_by_name_in_jar os path c <> [])
          by (rewrite Hcs; discriminate).
        rewrite (decompile_jar_class_sync_eq os _ _ (V2.build_base_args arguments)
                                             st Hne).
        cbv zeta. cbn [snd].
        destruct (workspace_trace os path (V2.build_base_args arguments)
                    (V2.find_class_by_name_in_jar os path c) st)
          as [mid [Ht [Hf [_ [Hcr [Hrm _]]]]]].
        eapply added_workspace; eassumption.
    + destruct (if_str (method_name arguments)) as [m|].
      * rewrite (Hm m eq_refl eq_refl).
        destruct (V2.find_classes_in_jar os path m) as [|x xs] eqn:Hcs.
        -- unfold V2.decompile_jar_method_sync. rewrite Hcs. apply added_nothing.
        -- assert (Hne : V2.find_classes_in_jar os path m <> [])
             by (rewrite Hcs; discriminate).
           rewrite (decompile_jar_method_sync_eq os _ _
                      (V2.build_base_args arguments ++ ["--methodname"; m])%list
                      st Hne).
           cbv zeta. cbn [snd].
           destruct (workspace_trace os path
                       (V2.build_base_args arguments ++ ["--methodname"; m])%list
                       (V2.find_classes_in_jar os path m) st)
             as [mid [Ht [Hf [_ [Hcr [Hrm _]]]]]].
           eapply added_workspace; eassumption.
      * rewrite (Hn eq_refl eq_refl). apply added_one_run. eexists. reflexivity.
  - apply String.eqb_neq in E. destruct (Hfile E) as [Hm Hn].
    destruct (if_str (method_name arguments)) as [m|].
    + rewrite (Hm m eq_refl). apply added_one_run. eexists. reflexivity.
    + rewrite (Hn eq_refl). apply added_one_run. eexists. reflexivity.
Qed.

(** X8. The base flags of a call.  They are the fixed flags
    ([--ignoreexceptions true] and [--hideutf true] when asked for, then
    always [--comments false --showversion false]) followed by the options in
    the order given: two words, [--key] and the rendered value, for each
    option whose key [validate_option_key] accepts, and nothing for the
    others.  So a rejected key removes only its own option, an absent
    [options] object is an empty one, and the number of words is even. *)
Theorem build_base_args_structure (arguments : Arguments) :
  V2.build_base_args arguments =
  (Views.fixed_flags arguments
   ++ flat_map Views.option_flags (Views.given_options arguments))%list
  /\ List.length (V2.build_base_args arguments) =
     List.length (Views.fixed_flags arguments)
     + 2 * List.length (filter (fun item => V2.validate_option_key (fst item))
                               (Views.given_options arguments))
  /\ Nat.Even (List.length (V2.build_base_args arguments))
  /\ (forall key value,
        In (key, value) (Views.given_options arguments) ->
        V2.validate_option_key key = true ->
        exists before after,
          V2.build_base_args arguments =
          (before ++ [("--" ++ key)%string; Views.render value] ++ after)%list).
Proof.
  rewrite build_base_args_eq. split; [reflexivity|].
  assert (Hlen : List.length
                   (Views.fixed_flags arguments
                    ++ flat_map Views.option_flags (Views.given_options arguments))
                 = List.length (Views.fixed_flags arguments)
                   + 2 * List.length
                           (filter (fun item => V2.validate_option_key (fst item))
                                   (Views.given_options arguments)))
    by now rewrite length_app, option_flags_length.
  split; [exact Hlen|]. split.
  - rewrite Hlen. unfold Views.fixed_flags.
    set (n := List.length (filter _ _)).
    destruct (if_bool (ignore_exceptions arguments));
      destruct (if_bool (hide_utf arguments)); cbn [app List.length].
    + exists (4 + n). lia.
    + exists (3 + n). lia.
    + exists (3 + n). lia.
    + exists (2 + n). lia.
  - intros key value Hin Hv.
    apply in_split in Hin. destruct Hin as [l1 [l2 ->]].
    exists (Views.fixed_flags arguments ++ flat_map Views.option_flags l1)%list,
           (flat_map Views.option_flags l2).
    rewrite flat_map_app. cbn [flat_map]. unfold Views.option_flags at 2.
    cbn [fst snd]. rewrite Hv. now rewrite <- !app_assoc.
Qed.

(** X9. The keys [validate_option_key] accepts, in both servers: a key is
    accepted exactly when it is a non-empty run of ASCII letters and digits,
    possibly followed by one line feed at its very end.  In particular an
    accepted key is never empty. *)
Theorem validate_option_key_accepts_exactly (key : string) :
  (V2.validate_option_key key = true <->
   exists w, w <> "" /\ V2.all_alnum w = true
             /\ (key = w \/ key = w ++ PyStr.LF))
  /\ V1.validate_option_key key = V2.validate_option_key key
  /\ (V2.validate_option_key key = true -> key <> "").
Proof.
  split; [apply validate_option_key_spec|]. split; [reflexivity|].
  intros H ->. vm_compute in H. discriminate H.
Qed.

(** X10. Where the method flag goes.  For a file that resolves, exists and
    is not an archive, and a call with a method name, both servers start one
    child process on the resolved path; the first server puts
    [--methodname <name>] right after the path, before the base flags, and
    the second puts it after them. *)
Theorem method_flag_position
        (os : OS) (arguments : Arguments) (fp path m : string) (st : state os) :
  if_str (file_path arguments) = Some fp ->
  if_str (method_name arguments) = Some m ->
  resolve os fp = Ok path ->
  path_exists os path = Ok true ->
  path_exists os "cfr.jar" = Ok true ->
  PyStr.lower (path_suffix os path) <> ".jar" ->
  let java := ["java"; "-jar"; "cfr.jar"; path] in
  let base_args := V2.build_base_args arguments in
  trace (snd (V1.call_tool os "decompile" arguments st))
  = (trace st ++ [EvSpawn (java ++ ["--methodname"; m] ++ base_args)%list 30])%list
  /\ trace (snd (V2.call_tool os "decompile" arguments st))
     = (trace st ++ [EvSpawn (java ++ base_args ++ ["--methodname"; m])%list 60])%list.
Proof.
  intros Hfp Hm Hres Hex Hcfr Hjar java base_args. split.
  - pose proof (v1_call_tool_checks os arguments fp st Hfp) as H. cbv zeta in H.
    change V1.CFR_JAR_PATH with "cfr.jar" in H.
    rewrite Hres, Hex, Hcfr in H. rewrite H, v1_build_cmd_structure, Hm.
    match goal with |- context [V1.run_cfr_sync os ?c st] =>
      destruct (v1_run_cfr_sync_ok os c st) as [text [st1 [-> Ht]]]
    end.
    exact Ht.
  - destruct (call_tool_routes os arguments fp path st Hfp Hres Hex Hcfr)
      as [_ Hfile].
    destruct (Hfile Hjar) as [Hrun _].
    rewrite (Hrun m Hm). now rewrite run_cfr_sync_eq.
Qed.

Lemma method_flag_position_witness :
  trace (snd (V1.call_tool Demo.os "decompile"
                (Demo.call "/opt/A.class" None (Some "computeTotal")) Demo.start))
  = [EvSpawn ["java"; "-jar"; "cfr.jar"; "/opt/A.class";
              "--methodname"; "computeTotal";
              "--ignoreexceptions"; "true"; "--comments"; "false";
              "--showversion"; "false"; "--sugarboxing"; "false"] 30]
  /\ trace (snd (V2.call_tool Demo.os "decompile"
                   (Demo.call "/opt/A.class" None (Some "computeTotal")) Demo.start))
     = [EvSpawn ["java"; "-jar"; "cfr.jar"; "/opt/A.class";
                 "--ignoreexceptions"; "true"; "--comments"; "false";
                 "--showversion"; "false"; "--sugarboxing"; "false";
                 "--methodname"; "computeTotal"] 60].
Proof.
  assert (Hne : PyStr.lower (path_suffix Demo.os "/opt/A.class") <> ".jar")
    by (vm_compute; discriminate).
  exact (method_flag_position Demo.os
           (Demo.call "/opt/A.class" None (Some "computeTotal"))
           "/opt/A.class" "/opt/A.class" "computeTotal" Demo.start
           eq_refl eq_refl eq_refl eq_refl eq_refl Hne).
Defined.



(** X12. The first server's [run_cfr_sync] returns text for every command
    and every behaviour of the child, never raises, and starts one child
    process under the 30 second timeout.  On normal completion the text is
    the standard output, followed by the [CFR STDERR] block exactly when the
    standard error is not blank; this is the text the second server's
    [run_cfr_sync] makes of the same completed process.  The timeout and
    error messages are the first server's own. *)
Theorem v1_run_cfr_sync_total (os : OS) (cmd : list string) (st : state os) :
  (exists text, fst (V1.run_cfr_sync os cmd st) = Ok text)
  /\ trace (snd (V1.run_cfr_sync os cmd st)) = (trace st ++ [EvSpawn cmd 30])%list
  /\ (forall p w,
        subprocess_run os cmd 30 (world st) = (Ok p, w) ->
        fst (V1.run_cfr_sync os cmd st) =
        Ok (if String.eqb (PyStr.strip (stderr p)) "" then stdout p
            else stdout p ++ V1.stderr_block (stderr p))
        /\ (forall w', subprocess_run os cmd 60 (world st) = (Ok p, w') ->
                       fst (V1.run_cfr_sync os cmd st) = fst (V2.run_cfr_sync os cmd st)))
  /\ (forall msg w,
        subprocess_run os cmd 30 (world st) = (Raise (TimeoutExpired msg), w) ->
        fst (V1.run_cfr_sync os cmd st) = Ok V1.timeout_message)
  /\ (forall e w,
        subprocess_run os cmd 30 (world st) = (Raise e, w) ->
        (forall msg, e <> TimeoutExpired msg) ->
        fst (V1.run_cfr_sync os cmd st) =
        Ok ("/* Error executing CFR (执行 CFR 出错): " ++ str_of_exn e ++ " */")).
Proof.
  split; [|split].
  - destruct (v1_run_cfr_sync_ok os cmd st) as [text [st1 [-> _]]]. now exists text.
  - destruct (v1_run_cfr_sync_ok os cmd st) as [text [st1 [-> Ht]]]. exact Ht.
  - unfold V1.run_cfr_sync, try_except, bind, run_process, ret,
      V1.CMD_TIMEOUT_SECONDS.
    split; [|split].
    + intros p w ->. cbn [fst]. rewrite stderr_test.
      assert (H1 : (if negb (String.eqb (PyStr.strip (stderr p)) "")
                    then stdout p ++ V1.stderr_block (stderr p) else stdout p)
                   = (if String.eqb (PyStr.strip (stderr p)) "" then stdout p
                      else stdout p ++ V1.stderr_block (stderr p)))
        by now destruct (String.eqb (PyStr.strip (stderr p)) "").
      rewrite H1. split; [reflexivity|].
      intros w' H2. rewrite run_cfr_sync_eq, H2. reflexivity.
    + now intros msg w ->.
    + intros e w -> H. cbn [fst]. destruct e; try reflexivity.
      now destruct (H msg).
Qed.

Lemma v1_run_cfr_sync_total_witness :
  fst (V1.run_cfr_sync Demo.os ["java"; "-jar"; "cfr.jar"; "/opt/Slow.class"]
                       Demo.start)
  = Ok V1.timeout_message
  /\ fst (V1.run_cfr_sync Demo.os ["java"; "-jar"; "cfr.jar"; "/opt/Quiet.class"]
                          Demo.start)
     = Ok "class Quiet { }".
Proof.
  split.
  - destruct (v1_run_cfr_sync_total
                Demo.os ["java"; "-jar"; "cfr.jar"; "/opt/Slow.class"] Demo.start)
      as [_ [_ [_ [H _]]]].
    exact (H "Command timed out" 0 eq_refl).
  - destruct (v1_run_cfr_sync_total
                Demo.os ["java"; "-jar"; "cfr.jar"; "/opt/Quiet.class"] Demo.start)
      as [_ [_ [H _]]].
    destruct (H {| stdout := "class Quiet { }"; stderr := PyStr.LF |} 0 eq_refl)
      as [Ht _].
    rewrite Ht. vm_compute. reflexivity.
Defined.

(** X13. No fallback between the archive strategies.  For an archive that
    resolves and exists and a call with a class name, when the class lookup
    finds nothing the call returns the class not-found message and has no
    effect, whatever [method_name] is: the method search is not tried. *)
Theorem class_lookup_has_no_fallback
        (os : OS) (arguments : Arguments) (fp path c : string) (st : state os) :
  if_str (file_path arguments) = Some fp ->
  if_str (class_name arguments) = Some c ->
  resolve os fp = Ok path ->
  path_exists os path = Ok true ->
  path_exists os "cfr.jar" = Ok true ->
  PyStr.lower (path_suffix os path) = ".jar" ->
  V2.find_class_by_name_in_jar os path c = [] ->
  V2.call_tool os "decompile" arguments st =
  (Ok (V2.class_not_found c (path_name os path)), st).
Proof.
  intros Hfp Hc Hres Hex Hcfr Hjar Hnone.
  destruct (call_tool_routes os arguments fp path st Hfp Hres Hex Hcfr)
    as [Harchive _].
  destruct (Harchive Hjar) as [Hclass _].
  rewrite (Hclass c Hc). unfold V2.decompile_jar_class_sync. now rewrite Hnone.
Qed.

Lemma class_lookup_has_no_fallback_witness :
  V2.find_classes_in_jar Demo.os "/opt/lib.jar" "helper" <> []
  /\ fst (V2.call_tool Demo.os "decompile"
            (Demo.call "/opt/lib.jar" (Some "pkg.Bar") (Some "helper")) Demo.start)
     = Ok (V2.class_not_found "pkg.Bar" "lib.jar")
  /\ trace (snd (V2.call_tool Demo.os "decompile"
                   (Demo.call "/opt/lib.jar" (Some "pkg.Bar") (Some "helper"))
                   Demo.start)) = [].
Proof.
  split; [vm_compute; discriminate|].
  rewrite (class_lookup_has_no_fallback
             Demo.os (Demo.call "/opt/lib.jar" (Some "pkg.Bar") (Some "helper"))
             "/opt/lib.jar" "/opt/lib.jar" "pkg.Bar" Demo.start
             eq_refl eq_refl eq_refl eq_refl eq_refl eq_refl eq_refl).
  split; reflexivity.
Defined.
